(** * Sunny AI meeting intelligence: the session orchestration core

    A shallow embedding of the asynchronous Python controller
    ([src/controller.py]), the meeting recorder and joiner
    ([src/meeting_bot/recorder.py], [src/meeting_bot/joiner.py]), the
    guarded entry points of the enrichment providers
    ([src/advanced_features/*.py]) and the HTTP handlers
    ([src/api/server.py], [src/web/app.py]).

    Conventions of the embedding.
    - A call that can raise returns an [Outcome]: [Returns v] or
      [Raises msg], where [msg] stands for Python's [str(e)].
    - What the outside world answers (browser, audio device, models, LLM,
      database, SMTP, clock) is read from explicit world records or carried
      by the scheduler events; the code's own control flow, guards and
      [try]/[except] structure are written out.
    - Python [float] and [datetime] values are integers of seconds ([Z]) where
      the code computes with them, rationals ([Q]) where it only stores them.
    - Python dictionaries are stdpp [gmap]s; a session is the dictionary
      [Dict[str, Any]] of the source, with a sum type of the values it holds.
    - Objects shared by reference ([MeetingSession]) live in a heap and are
      named by their location. *)

From Stdlib Require Import ZArith String Ascii QArith DecimalString.
From stdpp Require Import gmap strings list fin_maps.
From Equations Require Import Equations.

Open Scope string_scope.
Open Scope Z_scope.

(** ** Results of fallible calls *)

Inductive Outcome (A : Type) : Type :=
| Returns (v : A)
| Raises (msg : string).
Arguments Returns {A} v.
Arguments Raises {A} msg.

Definition outcome_bind {A B} (o : Outcome A) (k : A -> Outcome B) : Outcome B :=
  match o with
  | Returns v => k v
  | Raises msg => Raises msg
  end.

(** [try: body except Exception as e: handler(str(e))] *)
Definition try_except {A} (body : Outcome A) (handler : string -> Outcome A) : Outcome A :=
  match body with
  | Returns v => Returns v
  | Raises msg => handler msg
  end.

Definition returned {A} (o : Outcome A) : bool :=
  match o with Returns _ => true | Raises _ => false end.

(** ** Python string helpers used by the guards of the source *)

Module PyStr.

Definition lower_ascii (c : ascii) : ascii :=
  let n := nat_of_ascii c in
  if (65 <=? n)%nat && (n <=? 90)%nat then ascii_of_nat (n + 32) else c.

(** [s.lower()], on the ASCII range. *)
Fixpoint lower (s : string) : string :=
  match s with
  | EmptyString => EmptyString
  | String c r => String (lower_ascii c) (lower r)
  end.

(** [pat in s] *)
Definition contains (pat s : string) : bool :=
  match String.index 0 pat s with
  | Some _ => true
  | None => match pat with EmptyString => true | _ => false end
  end.

Definition is_space (c : ascii) : bool :=
  let n := nat_of_ascii c in
  ((9 <=? n)%nat && (n <=? 13)%nat) || (n =? 32)%nat
  || ((28 <=? n)%nat && (n <=? 31)%nat).

Fixpoint lstrip (s : string) : string :=
  match s with
  | EmptyString => EmptyString
  | String c r => if is_space c then lstrip r else s
  end.

Fixpoint rstrip (s : string) : string :=
  match s with
  | EmptyString => EmptyString
  | String c r =>
      match rstrip r with
      | EmptyString => if is_space c then EmptyString else String c EmptyString
      | r' => String c r'
      end
  end.

(** [s.strip()] *)
Definition strip (s : string) : string := rstrip (lstrip s).

(** [len(s)] *)
Definition len (s : string) : Z := Z.of_nat (String.length s).

(** [f"{n}"] for an integer *)
Definition of_int (n : Z) : string := NilZero.string_of_int (Z.to_int n).

End PyStr.

(** ** [meeting_bot/joiner.py] *)

Inductive MeetingPlatform := ZOOM | GOOGLE_MEET | UNKNOWN.

(** [MeetingPlatform.value] *)
Definition platform_value (p : MeetingPlatform) : string :=
  match p with
  | ZOOM => "zoom"
  | GOOGLE_MEET => "google_meet"
  | UNKNOWN => "unknown"
  end.

(** [MeetingJoiner.detect_platform] *)
Definition detect_platform (url : string) : MeetingPlatform :=
  let url_lower := PyStr.lower url in
  if PyStr.contains "zoom.us" url_lower || PyStr.contains "zoom.com" url_lower then ZOOM
  else if PyStr.contains "meet.google.com" url_lower then GOOGLE_MEET
  else UNKNOWN.

(** What one poll of the waiting room sees: the answer of
    [_verify_in_meeting] (it swallows its own errors and answers [False])
    and the result of [page.content()]. *)
Record PollObs := {
  po_in_meeting : bool;
  po_page_content : Outcome string;
}.

(** The joiner's clock: seconds spent in [asyncio.sleep] and polls made. *)
Record WaitClock := {
  wc_slept : Z;
  wc_polls : nat;
}.

Definition check_interval : Z := 5.

(** [await asyncio.sleep(seconds)] *)
Definition sleep (seconds : Z) (c : WaitClock) : WaitClock :=
  {| wc_slept := wc_slept c + seconds; wc_polls := wc_polls c |}.

Definition next_poll (c : WaitClock) : WaitClock :=
  {| wc_slept := wc_slept c; wc_polls := S (wc_polls c) |}.

Definition entry_denied (page_content : string) : bool :=
  PyStr.contains "denied" (PyStr.lower page_content)
  || PyStr.contains "removed" (PyStr.lower page_content).

(** The [while elapsed < timeout] loop of [MeetingJoiner._wait_for_admission]. *)
Equations? wait_loop (timeout elapsed : Z) (polls : nat -> PollObs) (c : WaitClock)
  : Outcome bool * WaitClock by wf (Z.to_nat (timeout - elapsed)) lt :=
  wait_loop timeout elapsed polls c with decide (elapsed < timeout) => {
    | right _ => (Returns false, c)
    | left _ =>
        let c1 := sleep check_interval c in
        let obs := polls (wc_polls c1) in
        let c2 := next_poll c1 in
        if po_in_meeting obs then (Returns true, c2)
        else match po_page_content obs with
             | Raises msg => (Raises msg, c2)
             | Returns page_content =>
                 if entry_denied page_content then (Returns false, c2)
                 else wait_loop timeout (elapsed + check_interval) polls c2
             end
  }.
Proof. unfold check_interval. lia. Qed.

(** [MeetingJoiner._wait_for_admission]; [timeout] is
    [config["meeting"]["waiting_room_timeout_seconds"]] (default 300). *)
Definition _wait_for_admission (timeout : Z) (polls : nat -> PollObs) (c : WaitClock)
  : Outcome bool * WaitClock :=
  wait_loop timeout 0 polls c.

(** What the browser answers during one call of
    [MeetingJoiner.join_meeting]. *)
Record JoinWorld := {
  (** [initialize_browser()], called when [self.browser] is still [None] *)
  jw_initialize_browser : Outcome unit;
  (** the page navigation, form filling and join click of
      [_join_google_meet] / [_join_zoom], ending in [_verify_in_meeting()]:
      [Returns true] when the bot is in the meeting at once, [Returns false]
      when it is left in the waiting room *)
  jw_enter_lobby : Outcome bool;
  (** what the k-th poll of the waiting room observes *)
  jw_polls : nat -> PollObs;
}.

Definition clock0 : WaitClock := {| wc_slept := 0; wc_polls := 0 |}.

(** [_join_google_meet] and [_join_zoom]: everything runs inside one
    [try], whose handler answers [False]. *)
Definition _join_platform (timeout : Z) (w : JoinWorld) : bool * WaitClock :=
  match jw_enter_lobby w with
  | Raises _ => (false, clock0)
  | Returns true => (true, clock0)
  | Returns false =>
      match _wait_for_admission timeout (jw_polls w) clock0 with
      | (Returns admitted, c) => (admitted, c)
      | (Raises _, c) => (false, c)
      end
  end.

(** [MeetingJoiner.join_meeting]: the result, the joiner's clock, and whether
    [self.browser] is set afterwards. [initialize_browser] sits before the
    [try], so its error reaches the caller. *)
Definition join_meeting (timeout : Z) (browser : bool) (url : string) (w : JoinWorld)
  : Outcome bool * WaitClock * bool :=
  let platform := detect_platform url in
  match (if browser then Returns tt else jw_initialize_browser w) with
  | Raises msg => (Raises msg, clock0, browser)
  | Returns _ =>
      match platform with
      | UNKNOWN => (Returns false, clock0, true)
      | _ => let '(joined, c) := _join_platform timeout w in (Returns joined, c, true)
      end
  end.

(** ** [meeting_bot/recorder.py]: data *)

Inductive RecordingState := IDLE | JOINING | IN_MEETING | RECORDING | ENDED | ERROR.

#[global] Instance RecordingState_eq_dec : EqDecision RecordingState.
Proof. solve_decision. Defined.

Inductive Scalar := SInt (n : Z) | SStr (s : string).

Record MeetingSession := {
  ms_meeting_url : string;
  ms_platform : MeetingPlatform;
  ms_start_time : option Z;
  ms_end_time : option Z;
  ms_audio_file : option string;
  ms_state : RecordingState;
  ms_error_message : option string;
  ms_metadata : gmap string Scalar;
}.

Definition new_MeetingSession (url : string) (p : MeetingPlatform) (st : RecordingState)
  : MeetingSession :=
  {| ms_meeting_url := url; ms_platform := p; ms_start_time := None; ms_end_time := None;
     ms_audio_file := None; ms_state := st; ms_error_message := None; ms_metadata := ∅ |}.

Definition ms_set_state (v : RecordingState) (m : MeetingSession) : MeetingSession :=
  {| ms_meeting_url := ms_meeting_url m; ms_platform := ms_platform m;
     ms_start_time := ms_start_time m; ms_end_time := ms_end_time m;
     ms_audio_file := ms_audio_file m; ms_state := v;
     ms_error_message := ms_error_message m; ms_metadata := ms_metadata m |}.

Definition ms_set_error_message (v : option string) (m : MeetingSession) : MeetingSession :=
  {| ms_meeting_url := ms_meeting_url m; ms_platform := ms_platform m;
     ms_start_time := ms_start_time m; ms_end_time := ms_end_time m;
     ms_audio_file := ms_audio_file m; ms_state := ms_state m;
     ms_error_message := v; ms_metadata := ms_metadata m |}.

Definition ms_set_start_time (v : option Z) (m : MeetingSession) : MeetingSession :=
  {| ms_meeting_url := ms_meeting_url m; ms_platform := ms_platform m;
     ms_start_time := v; ms_end_time := ms_end_time m;
     ms_audio_file := ms_audio_file m; ms_state := ms_state m;
     ms_error_message := ms_error_message m; ms_metadata := ms_metadata m |}.

Definition ms_set_end_time (v : option Z) (m : MeetingSession) : MeetingSession :=
  {| ms_meeting_url := ms_meeting_url m; ms_platform := ms_platform m;
     ms_start_time := ms_start_time m; ms_end_time := v;
     ms_audio_file := ms_audio_file m; ms_state := ms_state m;
     ms_error_message := ms_error_message m; ms_metadata := ms_metadata m |}.

Definition ms_set_audio_file (v : option string) (m : MeetingSession) : MeetingSession :=
  {| ms_meeting_url := ms_meeting_url m; ms_platform := ms_platform m;
     ms_start_time := ms_start_time m; ms_end_time := ms_end_time m;
     ms_audio_file := v; ms_state := ms_state m;
     ms_error_message := ms_error_message m; ms_metadata := ms_metadata m |}.

Definition ms_set_metadata (v : gmap string Scalar) (m : MeetingSession) : MeetingSession :=
  {| ms_meeting_url := ms_meeting_url m; ms_platform := ms_platform m;
     ms_start_time := ms_start_time m; ms_end_time := ms_end_time m;
     ms_audio_file := ms_audio_file m; ms_state := ms_state m;
     ms_error_message := ms_error_message m; ms_metadata := v |}.

(** [MeetingRecorder._format_duration], on whole seconds. Python's [//] and
    [%] round towards minus infinity, as [Z.div] and [Z.modulo] do. *)
Definition _format_duration (seconds : Z) : string :=
  let hours := seconds / 3600 in
  let minutes := (seconds mod 3600) / 60 in
  let secs := seconds mod 60 in
  if 0 <? hours then
    (PyStr.of_int hours ++ "h " ++ PyStr.of_int minutes ++ "m " ++ PyStr.of_int secs ++ "s")%string
  else if 0 <? minutes then
    (PyStr.of_int minutes ++ "m " ++ PyStr.of_int secs ++ "s")%string
  else (PyStr.of_int secs ++ "s")%string.

(** The [_monitor_meeting] task of one recording. *)
Inductive MonitorState :=
| MonCreated                 (** created by [asyncio.create_task], not yet run *)
| MonSleeping (start_time : Z)  (** inside [asyncio.sleep(end_detection_interval)] *)
| MonCancelled               (** cancelled while it slept *)
| MonFinished                (** the coroutine returned *)
| MonFailed (msg : string).  (** the coroutine raised *)

(** The [_run_session] task of one session. *)
Inductive DriverState :=
| DrvCreated     (** created by [asyncio.create_task], not yet run *)
| DrvJoining     (** inside [await self.recorder.start_session(...)] *)
| DrvWaiting     (** inside [await asyncio.sleep(5)] of the wait loop *)
| DrvFinished.   (** the coroutine returned *)

#[global] Instance DriverState_eq_dec : EqDecision DriverState.
Proof. solve_decision. Defined.

(** ** Result types of the providers (the dataclasses of the source) *)

(** [transcription/whisper_engine.py] *)
Record TranscriptionSegment := {
  tseg_start : Q;
  tseg_end : Q;
  tseg_text : string;
  tseg_confidence : Q;
  tseg_speaker : option string;
}.

Record TranscriptionResult := {
  tr_text : string;
  tr_segments : list TranscriptionSegment;
  tr_language : string;
  tr_duration : Q;
}.

(** [summarization/llm_pipeline.py] *)
Record SummaryActionItem := {
  sai_task : string;
  sai_owner : option string;
  sai_deadline : option string;
  sai_priority : string;
}.

Record MeetingSummary := {
  sum_executive_summary : string;
  sum_key_discussion_points : list string;
  sum_decisions_made : list string;
  sum_action_items : list SummaryActionItem;
  sum_confidence_score : Q;
  sum_raw_transcript : string;
}.

(** [advanced_features/diarization.py] *)
Record SpeakerSegment := {
  seg_speaker : string;
  seg_start : Q;
  seg_end : Q;
  seg_text : string;
  seg_confidence : Q;
}.

Record DiarizationResult := {
  diar_segments : list SpeakerSegment;
  diar_num_speakers : Z;
  diar_speaker_stats : gmap string Q;
}.

(** [DiarizationResult()] *)
Definition DiarizationResult_default : DiarizationResult :=
  {| diar_segments := []; diar_num_speakers := 0; diar_speaker_stats := ∅ |}.

(** [advanced_features/topic_segmentation.py] *)
Record TopicSegment := {
  topic_title : string;
  topic_start_time : Q;
  topic_end_time : Q;
  topic_summary : string;
  topic_key_points : list string;
  topic_transcript_excerpt : string;
}.

Record TopicSegmentationResult := {
  topics_topics : list TopicSegment;
  topics_total_topics : Z;
}.

(** [TopicSegmentationResult()] *)
Definition TopicSegmentationResult_default : TopicSegmentationResult :=
  {| topics_topics := []; topics_total_topics := 0 |}.

(** [advanced_features/sentiment.py] *)
Inductive Sentiment := POSITIVE | NEUTRAL | NEGATIVE.

Inductive EmotionalTone :=
| AGREEMENT | DISAGREEMENT | ENTHUSIASM | CONCERN | FRUSTRATION | TONE_NEUTRAL.

Record SentimentSegment := {
  sseg_text : string;
  sseg_sentiment : Sentiment;
  sseg_confidence : Q;
  sseg_emotional_tones : list EmotionalTone;
  sseg_speaker : option string;
  sseg_start_time : Q;
  sseg_end_time : Q;
}.

Record SentimentResult := {
  sent_overall_sentiment : Sentiment;
  sent_overall_confidence : Q;
  sent_sentiment_distribution : gmap string Q;
  sent_segments : list SentimentSegment;
  sent_conflict_detected : bool;
  sent_agreement_level : Q;
  sent_key_emotional_moments : list string;
}.

(** [SentimentResult()] *)
Definition SentimentResult_default : SentimentResult :=
  {| sent_overall_sentiment := NEUTRAL; sent_overall_confidence := 0%Q;
     sent_sentiment_distribution := ∅; sent_segments := [];
     sent_conflict_detected := false; sent_agreement_level := 0%Q;
     sent_key_emotional_moments := [] |}.

(** [advanced_features/action_items.py] *)
Record ActionItem := {
  ai_id : Z;
  ai_task : string;
  ai_owner : option string;
  ai_deadline : option string;
  ai_priority : string;
  ai_status : string;
  ai_context : string;
  ai_confidence : Q;
  ai_source_timestamp : Q;
}.

Record ActionItemResult := {
  air_items : list ActionItem;
  air_total_items : Z;
  air_items_with_owners : Z;
  air_items_with_deadlines : Z;
}.

(** [ActionItemResult()] *)
Definition ActionItemResult_default : ActionItemResult :=
  {| air_items := []; air_total_items := 0; air_items_with_owners := 0;
     air_items_with_deadlines := 0 |}.

(** [advanced_features/analytics.py] *)
Record SpeakerStats := {
  st_speaker_id : string;
  st_speaking_time_seconds : Q;
  st_speaking_percentage : Q;
  st_word_count : Z;
  st_segment_count : Z;
  st_avg_segment_duration : Q;
}.

Record MeetingMetrics := {
  mm_meeting_id : option Z;
  mm_platform : string;
  mm_date : option Z;
  mm_duration_seconds : Z;
  mm_duration_formatted : string;
  mm_num_speakers : Z;
  mm_speaker_stats : list SpeakerStats;
  mm_most_active_speaker : option string;
  mm_total_words : Z;
  mm_words_per_minute : Q;
  mm_num_topics : Z;
  mm_num_decisions : Z;
  mm_num_action_items : Z;
  mm_overall_sentiment : string;
  mm_sentiment_distribution : gmap string Q;
  mm_conflict_detected : bool;
  mm_agreement_level : Q;
  mm_participation_balance : Q;
  mm_silence_percentage : Q;
  mm_transcription_confidence : Q;
  mm_summary_confidence : Q;
}.

(** [MeetingMetrics()] *)
Definition MeetingMetrics_default : MeetingMetrics :=
  {| mm_meeting_id := None; mm_platform := ""; mm_date := None;
     mm_duration_seconds := 0; mm_duration_formatted := "";
     mm_num_speakers := 0; mm_speaker_stats := []; mm_most_active_speaker := None;
     mm_total_words := 0; mm_words_per_minute := 0%Q; mm_num_topics := 0;
     mm_num_decisions := 0; mm_num_action_items := 0;
     mm_overall_sentiment := "neutral"; mm_sentiment_distribution := ∅;
     mm_conflict_detected := false; mm_agreement_level := 0%Q;
     mm_participation_balance := 0%Q; mm_silence_percentage := 0%Q;
     mm_transcription_confidence := 0%Q; mm_summary_confidence := 0%Q |}.

(** [advanced_features/followup_email.py] *)
Record FollowupEmail := {
  fe_subject : string;
  fe_body_text : string;
  fe_body_html : string;
  fe_recipients_suggested : list string;
  fe_action_items_included : Z;
}.

(** The e-mail [generate] returns when the feature is disabled. *)
Definition FollowupEmail_disabled : FollowupEmail :=
  {| fe_subject := ""; fe_body_text := ""; fe_body_html := "";
     fe_recipients_suggested := []; fe_action_items_included := 0 |}.

(** ** The session dictionary of the controller *)

(** The values a session dictionary ([Dict[str, Any]]) holds. *)
Inductive Value :=
| VNone
| VBool (b : bool)
| VInt (n : Z)
| VStr (s : string)
| VMeetingSession (l : nat)   (** a reference to a [MeetingSession] object *)
| VTranscript (t : TranscriptionResult)
| VSummary (s : MeetingSummary)
| VDiarization (d : DiarizationResult)
| VSpeakerSegments (l : list SpeakerSegment)
| VTopics (t : TopicSegmentationResult)
| VSentiment (s : SentimentResult)
| VActionItems (a : ActionItemResult)
| VMetrics (m : MeetingMetrics)
| VFollowup (e : FollowupEmail).

(** Python truth value of what a session holds. Dataclass instances are
    always true. *)
Definition truthy (v : Value) : bool :=
  match v with
  | VNone => false
  | VBool b => b
  | VInt n => negb (n =? 0)
  | VStr s => negb (String.eqb s "")
  | VSpeakerSegments l => match l with [] => false | _ => true end
  | _ => true
  end.

Abbreviation Session := (gmap string Value).

(** [session.get(key)]: [None] when the key is missing. *)
Definition session_get (key : string) (session : Session) : Value :=
  default VNone (session !! key).

(** [session["status"]] as a string; the controller only ever stores strings
    under this key. *)
Definition status_of (session : Session) : string :=
  match session !! "status" with
  | Some (VStr s) => s
  | _ => ""
  end.

(** ** The state of the running process *)

(** [config["meeting"]] *)
Record Config := {
  max_duration_minutes : Z;
  waiting_room_timeout_seconds : Z;
  end_detection_interval_seconds : Z;
}.

(** [get_default_config()["meeting"]] *)
Definition default_config : Config :=
  {| max_duration_minutes := 180;
     waiting_room_timeout_seconds := 300;
     end_detection_interval_seconds := 10 |}.

Record State := {
  (** [SunnyAIController._sessions] and [._session_counter] *)
  _sessions : gmap Z Session;
  _session_counter : Z;
  (** [MeetingRecorder.session] and [._monitoring_task] *)
  rec_session : option nat;
  rec_monitoring_task : option nat;
  (** [AudioCapture._recording] and [._current_file] *)
  audio_recording : bool;
  audio_current_file : option string;
  (** [MeetingJoiner.browser] / [.page] are set *)
  joiner_browser : bool;
  (** the [MeetingSession] objects, by location *)
  heap : list MeetingSession;
  (** the [_monitor_meeting] tasks, by creation order *)
  monitor_tasks : list MonitorState;
  (** the [_run_session] tasks, by session id *)
  session_tasks : gmap Z DriverState;
}.

(** [SunnyAIController(config)] *)
Definition init_state : State :=
  {| _sessions := ∅; _session_counter := 0; rec_session := None;
     rec_monitoring_task := None; audio_recording := false;
     audio_current_file := None; joiner_browser := false; heap := [];
     monitor_tasks := []; session_tasks := ∅ |}.

Definition with_sessions (v : gmap Z Session) (st : State) : State :=
  {| _sessions := v; _session_counter := _session_counter st;
     rec_session := rec_session st; rec_monitoring_task := rec_monitoring_task st;
     audio_recording := audio_recording st; audio_current_file := audio_current_file st;
     joiner_browser := joiner_browser st; heap := heap st;
     monitor_tasks := monitor_tasks st; session_tasks := session_tasks st |}.

Definition with_session_counter (v : Z) (st : State) : State :=
  {| _sessions := _sessions st; _session_counter := v;
     rec_session := rec_session st; rec_monitoring_task := rec_monitoring_task st;
     audio_recording := audio_recording st; audio_current_file := audio_current_file st;
     joiner_browser := joiner_browser st; heap := heap st;
     monitor_tasks := monitor_tasks st; session_tasks := session_tasks st |}.

Definition with_rec_session (v : option nat) (st : State) : State :=
  {| _sessions := _sessions st; _session_counter := _session_counter st;
     rec_session := v; rec_monitoring_task := rec_monitoring_task st;
     audio_recording := audio_recording st; audio_current_file := audio_current_file st;
     joiner_browser := joiner_browser st; heap := heap st;
     monitor_tasks := monitor_tasks st; session_tasks := session_tasks st |}.

Definition with_rec_monitoring_task (v : option nat) (st : State) : State :=
  {| _sessions := _sessions st; _session_counter := _session_counter st;
     rec_session := rec_session st; rec_monitoring_task := v;
     audio_recording := audio_recording st; audio_current_file := audio_current_file st;
     joiner_browser := joiner_browser st; heap := heap st;
     monitor_tasks := monitor_tasks st; session_tasks := session_tasks st |}.

Definition with_audio_recording (v : bool) (st : State) : State :=
  {| _sessions := _sessions st; _session_counter := _session_counter st;
     rec_session := rec_session st; rec_monitoring_task := rec_monitoring_task st;
     audio_recording := v; audio_current_file := audio_current_file st;
     joiner_browser := joiner_browser st; heap := heap st;
     monitor_tasks := monitor_tasks st; session_tasks := session_tasks st |}.

Definition with_audio_current_file (v : option string) (st : State) : State :=
  {| _sessions := _sessions st; _session_counter := _session_counter st;
     rec_session := rec_session st; rec_monitoring_task := rec_monitoring_task st;
     audio_recording := audio_recording st; audio_current_file := v;
     joiner_browser := joiner_browser st; heap := heap st;
     monitor_tasks := monitor_tasks st; session_tasks := session_tasks st |}.

Definition with_joiner_browser (v : bool) (st : State) : State :=
  {| _sessions := _sessions st; _session_counter := _session_counter st;
     rec_session := rec_session st; rec_monitoring_task := rec_monitoring_task st;
     audio_recording := audio_recording st; audio_current_file := audio_current_file st;
     joiner_browser := v; heap := heap st;
     monitor_tasks := monitor_tasks st; session_tasks := session_tasks st |}.

Definition with_heap (v : list MeetingSession) (st : State) : State :=
  {| _sessions := _sessions st; _session_counter := _session_counter st;
     rec_session := rec_session st; rec_monitoring_task := rec_monitoring_task st;
     audio_recording := audio_recording st; audio_current_file := audio_current_file st;
     joiner_browser := joiner_browser st; heap := v;
     monitor_tasks := monitor_tasks st; session_tasks := session_tasks st |}.

Definition with_monitor_tasks (v : list MonitorState) (st : State) : State :=
  {| _sessions := _sessions st; _session_counter := _session_counter st;
     rec_session := rec_session st; rec_monitoring_task := rec_monitoring_task st;
     audio_recording := audio_recording st; audio_current_file := audio_current_file st;
     joiner_browser := joiner_browser st; heap := heap st;
     monitor_tasks := v; session_tasks := session_tasks st |}.

Definition with_session_tasks (v : gmap Z DriverState) (st : State) : State :=
  {| _sessions := _sessions st; _session_counter := _session_counter st;
     rec_session := rec_session st; rec_monitoring_task := rec_monitoring_task st;
     audio_recording := audio_recording st; audio_current_file := audio_current_file st;
     joiner_browser := joiner_browser st; heap := heap st;
     monitor_tasks := monitor_tasks st; session_tasks := v |}.

(** [self._sessions[sid][key] = v] through the reference the task holds *)
Definition session_set (sid : Z) (key : string) (v : Value) (st : State) : State :=
  with_sessions (alter (insert key v) sid (_sessions st)) st.

Definition set_task (sid : Z) (d : DriverState) (st : State) : State :=
  with_session_tasks (<[sid := d]> (session_tasks st)) st.

Definition set_monitor (tid : nat) (m : MonitorState) (st : State) : State :=
  with_monitor_tasks (<[tid := m]> (monitor_tasks st)) st.

(** An attribute write [self.session.attr = v] of the recorder: it goes to
    whatever object [self.session] names at that moment. *)
Definition update_rec_session (f : MeetingSession -> MeetingSession) (st : State) : State :=
  match rec_session st with
  | Some l => with_heap (alter f l (heap st)) st
  | None => st
  end.

(** The object [self.session] of the recorder, if any. *)
Definition current_session (st : State) : option MeetingSession :=
  l ← rec_session st; heap st !! l.

(** [MeetingRecorder.is_active] *)
Definition is_active (st : State) : bool :=
  match current_session st with
  | Some m => bool_decide (ms_state m = RECORDING)
  | None => false
  end.

(** ** [meeting_bot/audio.py] and [meeting_bot/recorder.py]: operations *)

(** What the audio device answers to one [AudioCapture.start_recording]. *)
Record AudioWorld := {
  aw_filename : string;          (** [output_dir / f"meeting_audio_{timestamp}.wav"] *)
  aw_stream_start : Outcome unit;  (** opening and starting the input stream *)
}.

(** [AudioCapture.start_recording] *)
Definition start_recording (aw : AudioWorld) (st : State) : Outcome (option string) * State :=
  if audio_recording st then (Returns (audio_current_file st), st)
  else
    let st1 := with_audio_recording true (with_audio_current_file (Some (aw_filename aw)) st) in
    match aw_stream_start aw with
    | Raises msg => (Raises msg, with_audio_recording false st1)
    | Returns _ => (Returns (audio_current_file st1), st1)
    end.

(** What the device and the browser answer while a session is torn down. *)
Record Teardown := {
  td_stop_recording : Outcome unit;  (** [AudioCapture.stop_recording] *)
  td_leave_meeting : Outcome unit;   (** [MeetingJoiner.leave_meeting] *)
}.

(** [self._monitoring_task.cancel()] followed by [await self._monitoring_task]
    inside [try ... except asyncio.CancelledError: pass]. A task that has not
    finished is cancelled (when the caller is that very task, the request is
    delivered at this [await] and swallowed by the handler; the caller then
    records its own end); awaiting a task that died re-raises its error. *)
Definition cancel_monitoring_task (st : State) : Outcome unit * State :=
  match rec_monitoring_task st with
  | None => (Returns tt, st)
  | Some tid =>
      match monitor_tasks st !! tid with
      | Some MonCreated | Some (MonSleeping _) => (Returns tt, set_monitor tid MonCancelled st)
      | Some (MonFailed msg) => (Raises msg, st)
      | _ => (Returns tt, st)
      end
  end.

(** The bookkeeping at the end of [end_session]: end time, state and the
    duration entries of [metadata]. *)
Definition close_session (now : Z) (m : MeetingSession) : MeetingSession :=
  let m1 := ms_set_state ENDED (ms_set_end_time (Some now) m) in
  match ms_start_time m1 with
  | Some t0 =>
      let duration := now - t0 in
      ms_set_metadata
        (<["duration_formatted" := SStr (_format_duration duration)]>
           (<["duration_seconds" := SInt duration]> (ms_metadata m1))) m1
  | None => m1
  end.

(** [MeetingRecorder.end_session]; [now] is the clock read for [end_time].
    No callback is ever registered by the controller. *)
Definition end_session (now : Z) (td : Teardown) (st : State) : Outcome unit * State :=
  match rec_session st with
  | None => (Returns tt, st)
  | Some _ =>
      match cancel_monitoring_task st with
      | (Raises msg, st1) => (Raises msg, st1)
      | (Returns _, st1) =>
          let stopped :=
            if audio_recording st1
            then (td_stop_recording td, with_audio_recording false st1)
            else (Returns tt, st1) in
          match stopped with
          | (Raises msg, st2) => (Raises msg, st2)
          | (Returns _, st2) =>
              match td_leave_meeting td with
              | Raises msg => (Raises msg, st2)
              | Returns _ => (Returns tt, update_rec_session (close_session now) st2)
              end
          end
      end
  end.

(** [MeetingRecorder.start_session], up to [await self.joiner.join_meeting]. *)
Definition recorder_start_session_begin (url : string) (st : State) : State :=
  let platform := detect_platform url in
  let l := length (heap st) in
  with_rec_session (Some l)
    (with_heap (heap st ++ [new_MeetingSession url platform JOINING]) st).

(** The [except Exception as e] handler of [MeetingRecorder.start_session]. *)
Definition recorder_start_failed (msg : string) (st : State) : State :=
  update_rec_session (fun m => ms_set_error_message (Some msg) (ms_set_state ERROR m)) st.

(** [MeetingRecorder.start_session], from the return of [join_meeting] on.
    The result is the location [self.session] names when the call returns
    ([None] stands for Python's [None]). *)
Definition recorder_start_session_finish (cfg : Config) (url : string) (jw : JoinWorld)
    (now : Z) (aw : AudioWorld) (st : State) : option nat * State :=
  let '(joined, _, browser') :=
    join_meeting (waiting_room_timeout_seconds cfg) (joiner_browser st) url jw in
  let st1 := with_joiner_browser browser' st in
  match joined with
  | Raises msg => let st2 := recorder_start_failed msg st1 in (rec_session st2, st2)
  | Returns false =>
      let st2 := recorder_start_failed "Failed to join meeting" st1 in
      (rec_session st2, st2)
  | Returns true =>
      let st2 :=
        update_rec_session
          (fun m => ms_set_start_time (Some now) (ms_set_state IN_MEETING m)) st1 in
      match start_recording aw st2 with
      | (Raises msg, st3) => let st4 := recorder_start_failed msg st3 in (rec_session st4, st4)
      | (Returns audio_file, st3) =>
          let st4 :=
            update_rec_session
              (fun m => ms_set_state RECORDING (ms_set_audio_file audio_file m)) st3 in
          let tid := length (monitor_tasks st4) in
          let st5 :=
            with_rec_monitoring_task (Some tid)
              (with_monitor_tasks (monitor_tasks st4 ++ [MonCreated]) st4) in
          (rec_session st5, st5)
      end
  end.

(** [self.max_duration] of the recorder *)
Definition max_duration (cfg : Config) : Z := max_duration_minutes cfg * 60.

(** The loop test of [_monitor_meeting], reached after a tick that did not
    [break]: the task sleeps again or returns. *)
Definition monitor_loop_head (tid : nat) (start_time : Z) (st : State) : State :=
  if is_active st then set_monitor tid (MonSleeping start_time) st
  else set_monitor tid MonFinished st.

(** One scheduling of the [_monitor_meeting] task [tid]: its first run, or
    its wake-up from [asyncio.sleep(self.end_detection_interval)] with the
    clock reading [now] and the answer [meeting_ended] of
    [_check_meeting_ended] (which swallows its own errors). *)
Definition monitor_tick (cfg : Config) (tid : nat) (now : Z) (meeting_ended : bool)
    (td : Teardown) (st : State) : State :=
  match monitor_tasks st !! tid with
  | Some MonCreated => monitor_loop_head tid now st
  | Some (MonSleeping start_time) =>
      let elapsed := now - start_time in
      if max_duration cfg <=? elapsed then
        match end_session now td st with
        | (Returns _, st1) => set_monitor tid MonFinished st1
        | (Raises msg, st1) => set_monitor tid (MonFailed msg) st1
        end
      else if joiner_browser st && meeting_ended then
        match end_session now td st with
        | (Returns _, st1) => set_monitor tid MonFinished st1
        | (Raises _, st1) => monitor_loop_head tid start_time st1
        end
      else monitor_loop_head tid start_time st
  | _ => st
  end.

(** ** The enrichment providers ([advanced_features/*.py]) *)

(** The switches of the providers, fixed once the controller is built and
    initialised. *)
Record Providers := {
  diarization_enabled : bool;
  diarizer_ready : bool;             (** [self._pipeline and self._initialized] *)
  topic_segmentation_enabled : bool;
  sentiment_enabled : bool;
  action_items_enabled : bool;
  analytics_enabled : bool;
  followup_email_enabled : bool;
  memory_initialized : bool;         (** [self.memory._initialized] *)
}.

(** Every feature enabled (the defaults), no optional model installed. *)
Definition default_providers : Providers :=
  {| diarization_enabled := true; diarizer_ready := false;
     topic_segmentation_enabled := true; sentiment_enabled := true;
     action_items_enabled := true; analytics_enabled := true;
     followup_email_enabled := true; memory_initialized := false |}.

(** What the models, the LLM, the file system, the database and the mail
    server answer during one run of [_process_recording]. Each field is the
    result of the call named in its comment; for a provider whose entry point
    has a [try], the field is the result of the body of that [try]. *)
Record ProcWorld := {
  pw_audio_exists : bool;                          (** [audio_file.exists()] *)
  pw_transcribe : Outcome TranscriptionResult;     (** [WhisperEngine.transcribe] *)
  pw_pyannote : Outcome DiarizationResult;         (** body of [_diarize_pyannote] *)
  pw_align : Outcome (list SpeakerSegment);        (** [align_with_transcript] *)
  pw_identify_topics : Outcome (list TopicSegment);  (** [_identify_topics_llm] *)
  pw_analyze : Outcome SentimentResult;            (** body of [SentimentAnalyzer.analyze] *)
  pw_summarize : Outcome MeetingSummary;           (** [summarize_transcript] *)
  pw_extract : Outcome ActionItemResult;           (** body of [ActionItemExtractor.extract] *)
  pw_metrics : Outcome MeetingMetrics;             (** body of [generate_metrics] *)
  pw_generate_report : Outcome string;             (** [PDFGenerator.generate_report] *)
  pw_save_meeting : Outcome Z;                     (** building the record, [save_meeting] *)
  pw_store_meeting : Outcome Z;                    (** [MeetingMemory.store_meeting] *)
  pw_followup_llm : Outcome FollowupEmail;         (** [_generate_with_llm] *)
  pw_followup_template : FollowupEmail;            (** [_generate_template] *)
  pw_send_summary : Outcome bool;                  (** [GmailSender.send_summary] *)
  pw_update_meeting : Outcome unit;                (** [MeetingStorage.update_meeting] *)
}.

(** [SpeakerDiarizer._diarize_fallback] *)
Definition _diarize_fallback : DiarizationResult :=
  {| diar_segments := []; diar_num_speakers := 0; diar_speaker_stats := ∅ |}.

(** [SpeakerDiarizer._diarize_pyannote] *)
Definition _diarize_pyannote (pw : ProcWorld) : DiarizationResult :=
  match pw_pyannote pw with
  | Returns result => result
  | Raises _ => _diarize_fallback
  end.

(** [SpeakerDiarizer.diarize] *)
Definition diarize (P : Providers) (pw : ProcWorld) : DiarizationResult :=
  if negb (diarization_enabled P) then DiarizationResult_default
  else if diarizer_ready P then _diarize_pyannote pw
  else _diarize_fallback.

(** [TopicSegmenter.segment_topics] *)
Definition segment_topics (P : Providers) (pw : ProcWorld) (transcript : string)
  : TopicSegmentationResult :=
  if negb (topic_segmentation_enabled P) then TopicSegmentationResult_default
  else if String.eqb transcript "" || (PyStr.len (PyStr.strip transcript) <? 100)
  then TopicSegmentationResult_default
  else match pw_identify_topics pw with
       | Returns topics =>
           {| topics_topics := topics; topics_total_topics := Z.of_nat (length topics) |}
       | Raises _ => TopicSegmentationResult_default
       end.

(** [SentimentAnalyzer.analyze] *)
Definition analyze (P : Providers) (pw : ProcWorld) : SentimentResult :=
  if negb (sentiment_enabled P) then SentimentResult_default
  else match pw_analyze pw with
       | Returns result => result
       | Raises _ => SentimentResult_default
       end.

(** [ActionItemExtractor.extract] *)
Definition extract (P : Providers) (pw : ProcWorld) : ActionItemResult :=
  if negb (action_items_enabled P) then ActionItemResult_default
  else match pw_extract pw with
       | Returns result => result
       | Raises _ => ActionItemResult_default
       end.

(** [MeetingAnalytics.generate_metrics]: no [try] in the source. *)
Definition generate_metrics (P : Providers) (pw : ProcWorld) : Outcome MeetingMetrics :=
  if negb (analytics_enabled P) then Returns MeetingMetrics_default
  else pw_metrics pw.

(** [FollowupEmailGenerator.generate]; the controller always hands it the
    LLM pipeline, so the [try] runs [_generate_with_llm] and the handler
    [_generate_template]. *)
Definition generate_followup (P : Providers) (pw : ProcWorld) : FollowupEmail :=
  if negb (followup_email_enabled P) then FollowupEmail_disabled
  else match pw_followup_llm pw with
       | Returns email => email
       | Raises _ => pw_followup_template pw
       end.

(** ** [SunnyAIController._process_recording] *)

(** Code that updates the session dictionary and may raise: the dictionary
    keeps every write made before the error. *)
Definition Proc (A : Type) : Type := Session -> Session * Outcome A.

Definition proc_ret {A} (v : A) : Proc A := fun s => (s, Returns v).

Definition proc_bind {A B} (c : Proc A) (k : A -> Proc B) : Proc B :=
  fun s => match c s with
           | (s1, Returns v) => k v s1
           | (s1, Raises msg) => (s1, Raises msg)
           end.

(** the result of an [await] or call that may raise *)
Definition call {A} (o : Outcome A) : Proc A := fun s => (s, o).

(** [session[key] = v] *)
Definition store (key : string) (v : Value) : Proc unit :=
  fun s => (<[key := v]> s, Returns tt).

(** [session["status"] = name] *)
Definition status (name : string) : Proc unit := store "status" (VStr name).

(** [session[key]] read as a truth value *)
Definition read_flag (key : string) : Proc bool :=
  fun s => (s, Returns (truthy (session_get key s))).

(** [try: body except Exception as e: handler(str(e))] *)
Definition proc_try {A} (body : Proc A) (handler : string -> Proc A) : Proc A :=
  fun s => match body s with
           | (s1, Returns v) => (s1, Returns v)
           | (s1, Raises msg) => handler msg s1
           end.

Definition proc_when (b : bool) (c : Proc unit) : Proc unit :=
  if b then c else proc_ret tt.

Declare Scope proc_scope.
Delimit Scope proc_scope with proc.
Notation "'do' x <- c1 ; c2" := (proc_bind c1 (fun x => c2))
  (at level 10, x name, c1 at level 100, c2 at level 200) : proc_scope.
Notation "c1 ;; c2" := (proc_bind c1 (fun _ => c2))
  (at level 100, c2 at level 200, right associativity) : proc_scope.

(** What the steps up to the follow-up e-mail leave in local variables for
    the delivery step. *)
Record Locals := {
  loc_pdf_path : string;
  loc_record_id : Z;
}.

Section Pipeline.
Context (P : Providers) (pw : ProcWorld) (meeting_session : MeetingSession).

Local Open Scope proc_scope.

(** Steps 2 to 12 of the [try] block. *)
Definition enrichment_steps : Proc Locals :=
  status "transcribing" ;;
  do transcript_result <- call (pw_transcribe pw) ;
  store "transcript" (VTranscript transcript_result) ;;
  let transcript_segments := tr_segments transcript_result in
  status "diarizing" ;;
  let diarization_result := diarize P pw in
  store "diarization" (VDiarization diarization_result) ;;
  proc_when (match diar_segments diarization_result, transcript_segments with
             | _ :: _, _ :: _ => true
             | _, _ => false
             end)
    (do aligned_segments <- call (pw_align pw) ;
     store "aligned_segments" (VSpeakerSegments aligned_segments)) ;;
  status "segmenting_topics" ;;
  let topic_result := segment_topics P pw (tr_text transcript_result) in
  store "topics" (VTopics topic_result) ;;
  status "analyzing_sentiment" ;;
  let sentiment_result := analyze P pw in
  store "sentiment" (VSentiment sentiment_result) ;;
  status "summarizing" ;;
  do summary <- call (pw_summarize pw) ;
  store "summary" (VSummary summary) ;;
  status "extracting_actions" ;;
  let action_result := extract P pw in
  store "action_items" (VActionItems action_result) ;;
  status "generating_analytics" ;;
  do metrics <- call (generate_metrics P pw) ;
  store "analytics" (VMetrics metrics) ;;
  status "generating_pdf" ;;
  do pdf_path <- call (pw_generate_report pw) ;
  store "pdf_path" (VStr pdf_path) ;;
  do record_id <- call (pw_save_meeting pw) ;
  store "db_record_id" (VInt record_id) ;;
  proc_when (memory_initialized P)
    (status "storing_memory" ;;
     do _ <- call (pw_store_meeting pw) ;
     proc_ret tt) ;;
  status "generating_followup" ;;
  let followup_email := generate_followup P pw in
  store "followup_email" (VFollowup followup_email) ;;
  proc_ret {| loc_pdf_path := pdf_path; loc_record_id := record_id |}.

(** Step 13: the delivery, with its own [try] whose handler only logs. *)
Definition delivery_step (locals : Locals) : Proc unit :=
  do send_email <- read_flag "send_email" ;
  proc_when send_email
    (status "sending_email" ;;
     proc_try
       (do _ <- call (pw_send_summary pw) ;
        call (pw_update_meeting pw))
       (fun _ => proc_ret tt)).

(** The handler of the outer [try]. *)
Definition processing_failed (msg : string) : Proc unit :=
  status "error" ;;
  store "error" (VStr msg).

(** The body of [_process_recording] once the session and its
    [MeetingSession] are at hand. *)
Definition process_session : Proc unit :=
  if negb (match ms_audio_file meeting_session with
           | Some _ => pw_audio_exists pw
           | None => false
           end)
  then
    status "error" ;;
    store "error" (VStr "No audio file recorded")
  else
    proc_try
      (do locals <- enrichment_steps ;
       delivery_step locals ;;
       status "completed")
      processing_failed.

End Pipeline.

(** [SunnyAIController._process_recording]: [session["meeting_session"]] is
    dereferenced first; on [None] the attribute access raises in front of the
    [try], towards [_run_session]. *)
Definition _process_recording (P : Providers) (pw : ProcWorld) (h : list MeetingSession)
  : Proc unit :=
  fun session =>
    match session_get "meeting_session" session with
    | VMeetingSession l =>
        match h !! l with
        | Some meeting_session => process_session P pw meeting_session session
        | None => (session, Raises "'NoneType' object has no attribute 'audio_file'")
        end
    | _ => (session, Raises "'NoneType' object has no attribute 'audio_file'")
    end.

(** ** [SunnyAIController]: the operations *)

(** The dictionary [start_session] registers. *)
Definition new_session (session_id : Z) (meeting_url recipient_email : string)
    (send_email : bool) : Session :=
  <["db_record_id" := VNone]>
  (<["pdf_path" := VNone]>
  (<["summary" := VNone]>
  (<["transcript" := VNone]>
  (<["meeting_session" := VNone]>
  (<["status" := VStr "starting"]>
  (<["send_email" := VBool send_email]>
  (<["recipient_email" := VStr recipient_email]>
  (<["meeting_url" := VStr meeting_url]>
  (<["id" := VInt session_id]> ∅))))))))).

(** [SunnyAIController.start_session]: there is no [await] in it; the task
    it creates runs later. *)
Definition start_session (meeting_url recipient_email : string) (send_email : bool)
    (st : State) : Z * State :=
  let session_id := _session_counter st + 1 in
  let st1 := with_session_counter session_id st in
  let st2 :=
    with_sessions
      (<[session_id := new_session session_id meeting_url recipient_email send_email]>
         (_sessions st1)) st1 in
  (session_id, set_task session_id DrvCreated st2).

(** The handler of the [try] of [_run_session]. *)
Definition run_session_failed (sid : Z) (msg : string) (st : State) : State :=
  session_set sid "error" (VStr msg) (session_set sid "status" (VStr "error") st).

(** [session[key]] where the controller stored a string *)
Definition session_str (key : string) (session : Session) : string :=
  match session_get key session with
  | VStr s => s
  | _ => ""
  end.

(** [_run_session], first scheduling: up to the [await] on the join. *)
Definition run_session_start (sid : Z) (st : State) : State :=
  match _sessions st !! sid with
  | None => set_task sid DrvFinished st
  | Some session =>
      let st1 := session_set sid "status" (VStr "joining") st in
      set_task sid DrvJoining
        (recorder_start_session_begin (session_str "meeting_url" session) st1)
  end.

(** [Optional[str]] as a session value *)
Definition value_of_option_string (o : option string) : Value :=
  match o with Some s => VStr s | None => VNone end.

(** [_run_session], from the return of [recorder.start_session] to the
    first [await asyncio.sleep(5)] of the wait loop. When the recorder has no
    session object to return, its attribute writes raise and the error
    reaches the handler of [_run_session]. *)
Definition run_session_joined (cfg : Config) (sid : Z) (jw : JoinWorld) (now : Z)
    (aw : AudioWorld) (st : State) : State :=
  match _sessions st !! sid with
  | None => st
  | Some session =>
      let '(result, st1) :=
        recorder_start_session_finish cfg (session_str "meeting_url" session) jw now aw st in
      match result ≫= (fun l => (fun m => (l, m)) <$> heap st1 !! l) with
      | None =>
          set_task sid DrvFinished
            (run_session_failed sid "'NoneType' object has no attribute 'state'" st1)
      | Some (l, meeting_session) =>
          let st2 := session_set sid "meeting_session" (VMeetingSession l) st1 in
          if bool_decide (ms_state meeting_session = ERROR) then
            set_task sid DrvFinished
              (session_set sid "error"
                 (value_of_option_string (ms_error_message meeting_session))
                 (session_set sid "status" (VStr "error") st2))
          else
            set_task sid DrvWaiting (session_set sid "status" (VStr "recording") st2)
      end
  end.

(** [_run_session], a wake-up of [while self.recorder.is_active: await
    asyncio.sleep(5)]: back to sleep, or on to the processing of the
    recording, run here in one piece. *)
Definition run_session_wake (P : Providers) (sid : Z) (pw : ProcWorld) (st : State) : State :=
  if is_active st then st
  else
    let st1 := session_set sid "status" (VStr "processing") st in
    match _sessions st1 !! sid with
    | None => set_task sid DrvFinished st1
    | Some session =>
        match _process_recording P pw (heap st1) session with
        | (session', Returns _) =>
            set_task sid DrvFinished (with_sessions (<[sid := session']> (_sessions st1)) st1)
        | (session', Raises msg) =>
            set_task sid DrvFinished
              (run_session_failed sid msg
                 (with_sessions (<[sid := session']> (_sessions st1)) st1))
        end
    end.

(** [SunnyAIController.stop_session] *)
Definition stop_session (sid : Z) (now : Z) (td : Teardown) (st : State)
  : Outcome unit * State :=
  match _sessions st !! sid with
  | None => (Raises ("Session " ++ PyStr.of_int sid ++ " not found")%string, st)
  | Some session =>
      let ended :=
        if String.eqb (status_of session) "recording"
        then end_session now td st
        else (Returns tt, st) in
      match ended with
      | (Raises msg, st1) => (Raises msg, st1)
      | (Returns _, st1) => (Returns tt, session_set sid "status" (VStr "stopped") st1)
      end
  end.

(** ** The scheduler: what can happen next in the process *)

Inductive Event :=
| ApiStart (meeting_url recipient_email : string) (send_email : bool)
| ApiStop (sid : Z) (now : Z) (td : Teardown)
| DriverRun (sid : Z)
| DriverJoined (sid : Z) (jw : JoinWorld) (now : Z) (aw : AudioWorld)
| DriverWake (sid : Z) (pw : ProcWorld)
| MonitorTick (tid : nat) (now : Z) (meeting_ended : bool) (td : Teardown).

Section Scheduler.
Context (cfg : Config) (P : Providers).

(** One event. A driver event is taken only by a task in the matching
    state; anything else leaves the process as it is. *)
Definition step (e : Event) (st : State) : State :=
  match e with
  | ApiStart url rcpt send => snd (start_session url rcpt send st)
  | ApiStop sid now td => snd (stop_session sid now td st)
  | DriverRun sid =>
      match session_tasks st !! sid with
      | Some DrvCreated => run_session_start sid st
      | _ => st
      end
  | DriverJoined sid jw now aw =>
      match session_tasks st !! sid with
      | Some DrvJoining => run_session_joined cfg sid jw now aw st
      | _ => st
      end
  | DriverWake sid pw =>
      match session_tasks st !! sid with
      | Some DrvWaiting => run_session_wake P sid pw st
      | _ => st
      end
  | MonitorTick tid now ended td => monitor_tick cfg tid now ended td st
  end.

(** A run of the process: the events in the order they happen. *)
Definition run (events : list Event) (st : State) : State :=
  fold_left (fun acc e => step e acc) events st.

(** The states the process can be in. *)
Definition reachable (st : State) : Prop :=
  exists events, st = run events init_state.

End Scheduler.

(** [session["status"]] of a registered session *)
Definition session_status (sid : Z) (st : State) : option string :=
  status_of <$> (_sessions st !! sid).

(** ** The read side of the controller and the HTTP handlers *)

(** [database/storage.py] *)
Record MeetingRecord := {
  rec_id : Z;
  rec_meeting_url : string;
  rec_platform : string;
  rec_start_time : option string;
  rec_end_time : option string;
  rec_duration_seconds : Z;
  rec_audio_file : option string;
  rec_transcript : option string;
  rec_summary_json : option string;
  rec_pdf_path : option string;
  rec_email_sent : bool;
  rec_email_recipient : option string;
  rec_created_at : option string;
}.

(** The rows of the [meetings] table, by primary key:
    [MeetingStorage.get_meeting] is the lookup. *)
Abbreviation Database := (gmap Z MeetingRecord).

(** The dictionary [get_session_status] returns. *)
Record StatusSnapshot := {
  snap_session_id : Z;
  snap_status : string;
  snap_platform : option string;
  snap_start_time : option string;
  snap_duration : option string;
  snap_transcript_available : bool;
  snap_summary_available : bool;
  snap_pdf_path : option string;
  snap_email_sent : bool;
}.

(** [datetime.isoformat()]: instants are integers here, and so is their text. *)
Definition isoformat (t : Z) : string := PyStr.of_int t.

(** Truth value of an [Optional[str]] *)
Definition truthy_string (o : option string) : bool :=
  match o with
  | Some s => negb (String.eqb s "")
  | None => false
  end.

Definition is_not_none (v : Value) : bool :=
  match v with VNone => false | _ => true end.

(** [session.get("meeting_session")], dereferenced *)
Definition session_meeting_session (session : Session) (st : State) : option MeetingSession :=
  match session_get "meeting_session" session with
  | VMeetingSession l => heap st !! l
  | _ => None
  end.

(** [session.get("status") == "completed" and session.get("send_email", False)] *)
Definition email_sent_flag (session : Session) : bool :=
  match session_get "status" session with
  | VStr s => String.eqb s "completed"
  | _ => false
  end && truthy (session_get "send_email" session).

(** [SunnyAIController.get_session_status] *)
Definition get_session_status (db : Database) (session_id : Z) (st : State)
  : option StatusSnapshot :=
  match _sessions st !! session_id with
  | None =>
      if session_id <=? 0 then None
      else
        match db !! session_id with
        | Some record =>
            Some {| snap_session_id := rec_id record;
                    snap_status := "completed";
                    snap_platform := Some (rec_platform record);
                    snap_start_time := rec_start_time record;
                    snap_duration := Some (PyStr.of_int (rec_duration_seconds record) ++ "s")%string;
                    snap_transcript_available := truthy_string (rec_transcript record);
                    snap_summary_available := truthy_string (rec_summary_json record);
                    snap_pdf_path := rec_pdf_path record;
                    snap_email_sent := rec_email_sent record |}
        | None => None
        end
  | Some session =>
      let meeting_session := session_meeting_session session st in
      Some {| snap_session_id := session_id;
              snap_status := status_of session;
              snap_platform := (fun m => platform_value (ms_platform m)) <$> meeting_session;
              snap_start_time := isoformat <$> (meeting_session ≫= ms_start_time);
              snap_duration :=
                m ← meeting_session;
                match ms_metadata m !! "duration_formatted" with
                | Some (SStr s) => Some s
                | _ => None
                end;
              snap_transcript_available := is_not_none (session_get "transcript" session);
              snap_summary_available := is_not_none (session_get "summary" session);
              snap_pdf_path :=
                match session_get "pdf_path" session with
                | VStr p => if String.eqb p "" then None else Some p
                | _ => None
                end;
              snap_email_sent := email_sent_flag session |}
  end.

(** What a handler sends back on success. *)
Inductive Payload :=
| PStatus (snapshot : StatusSnapshot)
| PStopped (session_id : Z)
| PTranscript (session_id : Z) (transcript : string)
| PSummary (session_id : Z) (summary : MeetingSummary + string)
| PFile (path : string)
| PResult (v : Value).

Inductive Response :=
| Ok200 (body : Payload)
| HTTPException (status_code : Z) (detail : string).

(** [SunnyAIController.get_transcript] *)
Definition get_transcript (db : Database) (session_id : Z) (st : State) : option Payload :=
  match (_sessions st !! session_id) ≫= (fun s : Session => s !! "transcript") with
  | Some (VTranscript t) => Some (PTranscript session_id (tr_text t))
  | _ =>
      match db !! session_id with
      | Some record =>
          match rec_transcript record with
          | Some text => if String.eqb text "" then None else Some (PTranscript session_id text)
          | None => None
          end
      | None => None
      end
  end.

(** [SunnyAIController.get_summary] *)
Definition get_summary (db : Database) (session_id : Z) (st : State) : option Payload :=
  match (_sessions st !! session_id) ≫= (fun s : Session => s !! "summary") with
  | Some (VSummary s) => Some (PSummary session_id (inl s))
  | _ =>
      match db !! session_id with
      | Some record =>
          match rec_summary_json record with
          | Some json => if String.eqb json "" then None else Some (PSummary session_id (inr json))
          | None => None
          end
      | None => None
      end
  end.

(** [SunnyAIController.get_pdf_path] *)
Definition get_pdf_path (db : Database) (session_id : Z) (st : State) : option string :=
  let from_database :=
    record ← db !! session_id;
    p ← rec_pdf_path record;
    if String.eqb p "" then None else Some p in
  match (_sessions st !! session_id) ≫= (fun s : Session => s !! "pdf_path") with
  | Some (VStr p) => if String.eqb p "" then from_database else Some p
  | _ => from_database
  end.

(** [get_analytics], [get_diarization], [get_topics], [get_sentiment],
    [get_action_items], [get_followup_email]: the entry of the session
    dictionary if the session is registered and the entry is set. *)
Definition get_result (key : string) (session_id : Z) (st : State) : option Payload :=
  match (_sessions st !! session_id) ≫= (fun s : Session => s !! key) with
  | Some v => if truthy v then Some (PResult v) else None
  | None => None
  end.

(** The operations of the HTTP surface that take a session id. *)
Inductive Operation :=
| OpStatus | OpStop | OpTranscript | OpSummary | OpPdf
| OpAnalytics | OpDiarization | OpTopics | OpSentiment | OpActionItems | OpFollowupEmail.

Definition some_or_404 (detail : string) (o : option Payload) : Response :=
  match o with
  | Some body => Ok200 body
  | None => HTTPException 404 detail
  end.

Section Handlers.
(** the rows of the database, the files that exist, and what a stop
    request meets when it tears a recording down *)
Context (db : Database) (path_exists : string -> bool) (now : Z) (td : Teardown).

(** [stop_meeting]: every exception of [controller.stop_session],
    the [ValueError] for an unknown id included, is turned into a 500. *)
Definition stop_meeting (controller : option State) (session_id : Z)
  : Response * option State :=
  match controller with
  | None => (HTTPException 503 "Controller not initialized", None)
  | Some st =>
      match stop_session session_id now td st with
      | (Returns _, st1) => (Ok200 (PStopped session_id), Some st1)
      | (Raises msg, st1) => (HTTPException 500 msg, Some st1)
      end
  end.

(** The handler of each operation. The read handlers answer 404 when
    the controller returns nothing. *)
Definition handle (op : Operation) (controller : option State) (session_id : Z) : Response :=
  match controller with
  | None => HTTPException 503 "Controller not initialized"
  | Some st =>
      match op with
      | OpStatus =>
          some_or_404 "Session not found" (PStatus <$> get_session_status db session_id st)
      | OpStop => fst (stop_meeting controller session_id)
      | OpTranscript => some_or_404 "Transcript not available" (get_transcript db session_id st)
      | OpSummary => some_or_404 "Summary not available" (get_summary db session_id st)
      | OpPdf =>
          match get_pdf_path db session_id st with
          | Some p => if path_exists p then Ok200 (PFile p)
                      else HTTPException 404 "PDF not available"
          | None => HTTPException 404 "PDF not available"
          end
      | OpAnalytics => some_or_404 "Analytics not available" (get_result "analytics" session_id st)
      | OpDiarization =>
          some_or_404 "Diarization not available" (get_result "diarization" session_id st)
      | OpTopics => some_or_404 "Topics not available" (get_result "topics" session_id st)
      | OpSentiment =>
          some_or_404 "Sentiment analysis not available" (get_result "sentiment" session_id st)
      | OpActionItems =>
          some_or_404 "Action items not available" (get_result "action_items" session_id st)
      | OpFollowupEmail =>
          some_or_404 "Follow-up email not available" (get_result "followup_email" session_id st)
      end
  end.

Definition status_code (r : Response) : Z :=
  match r with
  | Ok200 _ => 200
  | HTTPException code _ => code
  end.

End Handlers.

(** ** Conditions on the world and on the process used in the statements *)

(** The waiting room shows neither admission nor denial. *)
Definition pending (obs : PollObs) : Prop :=
  po_in_meeting obs = false /\
  exists page, po_page_content obs = Returns page /\ entry_denied page = false.

(** The poll finds the bot in the meeting. *)
Definition admitted (obs : PollObs) : Prop := po_in_meeting obs = true.

(** The poll finds the denial text on the page. *)
Definition denied (obs : PollObs) : Prop :=
  po_in_meeting obs = false /\
  exists page, po_page_content obs = Returns page /\ entry_denied page = true.

(** The recording of the session is on disk. *)
Definition audio_on_disk (pw : ProcWorld) (meeting_session : MeetingSession) : Prop :=
  is_Some (ms_audio_file meeting_session) /\ pw_audio_exists pw = true.

(** [align_with_transcript] is not called, or it returns. *)
Definition alignment_returns (P : Providers) (pw : ProcWorld) (tr : TranscriptionResult) : Prop :=
  diar_segments (diarize P pw) = [] \/ tr_segments tr = [] \/ returned (pw_align pw) = true.

(** The steps of the pipeline that have no handler of their own return:
    alignment, summary, analytics, report, persistence and, when the memory
    is initialised, the memory store. *)
Definition unguarded_steps_return (P : Providers) (pw : ProcWorld)
    (tr : TranscriptionResult) : Prop :=
  alignment_returns P pw tr /\
  returned (pw_summarize pw) = true /\
  returned (generate_metrics P pw) = true /\
  returned (pw_generate_report pw) = true /\
  returned (pw_save_meeting pw) = true /\
  (memory_initialized P = true -> returned (pw_store_meeting pw) = true).

(** The session reaches the delivery step: the recording is on disk and
    steps 2 to 12 return, leaving [locals] and the dictionary [session']. *)
Definition reaches_delivery (P : Providers) (pw : ProcWorld) (meeting_session : MeetingSession)
    (session session' : Session) (locals : Locals) : Prop :=
  audio_on_disk pw meeting_session /\
  enrichment_steps P pw session = (session', Returns locals).

(** The code [c] leaves the entry [key] of the dictionary as it is. *)
Definition keeps {A} (key : string) (c : Proc A) : Prop :=
  forall s, fst (c s) !! key = s !! key.

(** The code [c], run on [s], returns, and the dictionary and the value it
    leaves satisfy [Q]. *)
Definition returns_with {A} (c : Proc A) (s : Session) (Q : Session -> A -> Prop) : Prop :=
  exists s' v, c s = (s', Returns v) /\ Q s' v.

(** The session [sid] is at the door of its meeting: it is registered with
    a URL of a known platform, the recorder holds a session object, the
    browser is or can be started, and the join click leaves the bot in the
    waiting room. *)
Definition in_waiting_room (sid : Z) (jw : JoinWorld) (st : State) (session : Session) : Prop :=
  _sessions st !! sid = Some session /\
  detect_platform (session_str "meeting_url" session) ≠ UNKNOWN /\
  is_Some (current_session st) /\
  (joiner_browser st = true \/ jw_initialize_browser jw = Returns tt) /\
  jw_enter_lobby jw = Returns false.

(** The audio capture is running already, or its stream can be started. *)
Definition audio_starts (aw : AudioWorld) (st : State) : Prop :=
  audio_recording st = true \/ aw_stream_start aw = Returns tt.

(** The registry, the driving tasks and the id counter are the same in both
    states. *)
Definition same_registry (st st' : State) : Prop :=
  _sessions st' = _sessions st /\
  session_tasks st' = session_tasks st /\
  _session_counter st' = _session_counter st.

(** Between [st] and [st'] only the session [sid] and its task may differ;
    no session is added or removed. *)
Definition only_touches (sid : Z) (st st' : State) : Prop :=
  _session_counter st' = _session_counter st /\
  (forall sid', sid' ≠ sid ->
     _sessions st' !! sid' = _sessions st !! sid' /\
     session_tasks st' !! sid' = session_tasks st !! sid') /\
  (is_Some (_sessions st' !! sid) <-> is_Some (_sessions st !! sid)).

(** The session an event is about. *)
Definition subject (e : Event) : option Z :=
  match e with
  | ApiStart _ _ _ => None
  | ApiStop sid _ _ => Some sid
  | DriverRun sid => Some sid
  | DriverJoined sid _ _ _ => Some sid
  | DriverWake sid _ => Some sid
  | MonitorTick _ _ _ _ => None
  end.

(** The counter is not negative and every registered id lies between 1 and
    the counter. *)
Definition ids_bounded (st : State) : Prop :=
  0 <= _session_counter st /\
  forall sid, is_Some (_sessions st !! sid) -> 1 <= sid <= _session_counter st.

(** A session whose driving task has written [completed] or [error]. *)
Definition terminal (session : Session) : Prop :=
  status_of session = "completed" \/ status_of session = "error".

(** Once the status of a session is [completed] or [error], its task has
    returned. *)
Definition finished_when_terminal (st : State) : Prop :=
  forall sid session,
    _sessions st !! sid = Some session -> terminal session ->
    session_tasks st !! sid = Some DrvFinished.

(** ** Concrete worlds for the examples *)

Module Scenario.

Definition meet_url : string := "https://meet.google.com/abc-defg-hij".

Definition quiet_lobby (k : nat) : PollObs :=
  {| po_in_meeting := false; po_page_content := Returns "Asking to be let in..." |}.

Definition denying_lobby (k : nat) : PollObs :=
  {| po_in_meeting := false; po_page_content := Returns "Your request was denied" |}.

(** the bot is let in at once *)
Definition jw_admitted : JoinWorld :=
  {| jw_initialize_browser := Returns tt; jw_enter_lobby := Returns true;
     jw_polls := quiet_lobby |}.

(** the host never answers *)
Definition jw_pending : JoinWorld :=
  {| jw_initialize_browser := Returns tt; jw_enter_lobby := Returns false;
     jw_polls := quiet_lobby |}.

(** the host refuses at the first poll *)
Definition jw_denied : JoinWorld :=
  {| jw_initialize_browser := Returns tt; jw_enter_lobby := Returns false;
     jw_polls := denying_lobby |}.

(** the host lets the bot in at the third poll *)
Definition late_lobby (k : nat) : PollObs :=
  {| po_in_meeting := (2 <=? k)%nat; po_page_content := Returns "Asking to be let in..." |}.

Definition jw_admitted_late : JoinWorld :=
  {| jw_initialize_browser := Returns tt; jw_enter_lobby := Returns false;
     jw_polls := late_lobby |}.

Definition aw_ok : AudioWorld :=
  {| aw_filename := "outputs/meeting_audio_20240101_100000.wav";
     aw_stream_start := Returns tt |}.

Definition td_ok : Teardown :=
  {| td_stop_recording := Returns tt; td_leave_meeting := Returns tt |}.

Definition transcript : TranscriptionResult :=
  {| tr_text := "Let us ship on Friday."; tr_segments := [];
     tr_language := "en"; tr_duration := 5%Q |}.

Definition summary : MeetingSummary :=
  {| sum_executive_summary := "The team ships on Friday.";
     sum_key_discussion_points := ["release date"];
     sum_decisions_made := ["ship on Friday"]; sum_action_items := [];
     sum_confidence_score := 0%Q; sum_raw_transcript := tr_text transcript |}.

Definition template_email : FollowupEmail :=
  {| fe_subject := "Follow-up: Google_Meet Meeting"; fe_body_text := "Hi Team,";
     fe_body_html := "<p>Hi Team,</p>"; fe_recipients_suggested := [];
     fe_action_items_included := 0 |}.

(** every model, the LLM, the database and the mail server answer *)
Definition pw_ok : ProcWorld :=
  {| pw_audio_exists := true;
     pw_transcribe := Returns transcript;
     pw_pyannote := Returns DiarizationResult_default;
     pw_align := Returns [];
     pw_identify_topics := Returns [];
     pw_analyze := Returns SentimentResult_default;
     pw_summarize := Returns summary;
     pw_extract := Returns ActionItemResult_default;
     pw_metrics := Returns MeetingMetrics_default;
     pw_generate_report := Returns "outputs/meeting_summary_20240101_100000.pdf";
     pw_save_meeting := Returns 1;
     pw_store_meeting := Returns 3;
     pw_followup_llm := Returns template_email;
     pw_followup_template := template_email;
     pw_send_summary := Returns true;
     pw_update_meeting := Returns tt |}.

(** as [pw_ok], with one field replaced *)
Definition pw_smtp_down : ProcWorld :=
  {| pw_audio_exists := true;
     pw_transcribe := Returns transcript;
     pw_pyannote := Returns DiarizationResult_default;
     pw_align := Returns [];
     pw_identify_topics := Returns [];
     pw_analyze := Returns SentimentResult_default;
     pw_summarize := Returns summary;
     pw_extract := Returns ActionItemResult_default;
     pw_metrics := Returns MeetingMetrics_default;
     pw_generate_report := Returns "outputs/meeting_summary_20240101_100000.pdf";
     pw_save_meeting := Returns 1;
     pw_store_meeting := Returns 3;
     pw_followup_llm := Returns template_email;
     pw_followup_template := template_email;
     pw_send_summary := Raises "Email credentials not configured";
     pw_update_meeting := Returns tt |}.




Definition pw_whisper_down : ProcWorld :=
  {| pw_audio_exists := true;
     pw_transcribe := Raises "whisper: cannot decode audio";
     pw_pyannote := Returns DiarizationResult_default;
     pw_align := Returns [];
     pw_identify_topics := Returns [];
     pw_analyze := Returns SentimentResult_default;
     pw_summarize := Returns summary;
     pw_extract := Returns ActionItemResult_default;
     pw_metrics := Returns MeetingMetrics_default;
     pw_generate_report := Returns "outputs/meeting_summary_20240101_100000.pdf";
     pw_save_meeting := Returns 1;
     pw_store_meeting := Returns 3;
     pw_followup_llm := Returns template_email;
     pw_followup_template := template_email;
     pw_send_summary := Returns true;
     pw_update_meeting := Returns tt |}.

(** every feature on, diarization model and memory index loaded *)
Definition full_providers : Providers :=
  {| diarization_enabled := true; diarizer_ready := true;
     topic_segmentation_enabled := true; sentiment_enabled := true;
     action_items_enabled := true; analytics_enabled := true;
     followup_email_enabled := true; memory_initialized := true |}.

(** the [MeetingSession] of a recording that has ended *)
Definition ended_meeting : MeetingSession :=
  close_session 130
    (ms_set_state RECORDING
       (ms_set_audio_file (Some (aw_filename aw_ok))
          (ms_set_start_time (Some 100)
             (new_MeetingSession meet_url GOOGLE_MEET JOINING)))).

(** a session dictionary as [start_session] leaves it, e-mail requested *)
Definition fresh_session : Session := new_session 1 meet_url "team@example.com" true.

(** ... once [_run_session] has stored the recorder's session object,
    which lives at location 0 *)
Definition joined_session : Session :=
  <["status" := VStr "processing"]>
    (<["meeting_session" := VMeetingSession 0]> fresh_session).

(** one session, started at 100, joined at once and recording *)
Definition recording_events : list Event :=
  [ApiStart meet_url "team@example.com" true; DriverRun 1;
   DriverJoined 1 jw_admitted 100 aw_ok].

Definition recording_state : State :=
  run default_config full_providers recording_events init_state.

(** ... whose meeting the monitor finds ended at 130 *)
Definition ended_state : State :=
  run default_config full_providers
    [MonitorTick 0 100 false td_ok; MonitorTick 0 130 true td_ok] recording_state.

(** ... and whose recording is processed with [pw] *)
Definition processed_state (pw : ProcWorld) : State :=
  run default_config full_providers [DriverWake 1 pw] ended_state.


(** the whole life of that session, from the start to a successful
    processing *)
Definition completed_events : list Event :=
  recording_events ++
  [MonitorTick 0 100 false td_ok; MonitorTick 0 130 true td_ok; DriverWake 1 pw_ok].

(** the session dictionary in [ended_state] *)
Definition ended_session : Session := default ∅ (_sessions ended_state !! 1).

(** the local variables at the delivery step in these worlds *)
Definition delivery_locals : Locals :=
  {| loc_pdf_path := "outputs/meeting_summary_20240101_100000.pdf"; loc_record_id := 1 |}.

(** one minute of recording at most, half a minute in the waiting room *)
Definition one_minute : Config :=
  {| max_duration_minutes := 1; waiting_room_timeout_seconds := 30;
     end_detection_interval_seconds := 10 |}.


(** one session whose task is inside the join *)
Definition joining_state : State :=
  run one_minute full_providers
    [ApiStart meet_url "team@example.com" true; DriverRun 1] init_state.

Definition joining_session : Session := default ∅ (_sessions joining_state !! 1).

End Scenario.

(** * Properties *)

(** ** The session dictionary *)

Lemma status_of_insert (name : string) (s : Session) :
  status_of (<["status" := VStr name]> s) = name.
Proof. unfold status_of. by rewrite lookup_insert_eq. Qed.

Lemma status_of_insert_ne (key : string) (v : Value) (s : Session) :
  key ≠ "status" -> status_of (<[key := v]> s) = status_of s.
Proof. intros Hne. unfold status_of. by rewrite lookup_insert_ne. Qed.

Lemma session_get_insert_ne (key key' : string) (v : Value) (s : Session) :
  key' ≠ key -> session_get key (<[key' := v]> s) = session_get key s.
Proof. intros Hne. unfold session_get. by rewrite lookup_insert_ne. Qed.

Lemma session_get_insert (key : string) (v : Value) (s : Session) :
  session_get key (<[key := v]> s) = v.
Proof. unfold session_get. by rewrite lookup_insert_eq. Qed.

(** ** Which entries a piece of the pipeline writes *)

Lemma keeps_ret {A} key (v : A) : keeps key (proc_ret v).
Proof. by intros s. Qed.

Lemma keeps_call {A} key (o : Outcome A) : keeps key (call o).
Proof. by intros s. Qed.

Lemma keeps_read_flag key key' : keeps key (read_flag key').
Proof. by intros s. Qed.

Lemma keeps_store key key' v : key' ≠ key -> keeps key (store key' v).
Proof. intros Hne s. simpl. by rewrite lookup_insert_ne. Qed.

Lemma keeps_status key name : "status" ≠ key -> keeps key (status name).
Proof. apply keeps_store. Qed.

Lemma keeps_bind {A B} key (c : Proc A) (k : A -> Proc B) :
  keeps key c -> (forall v, keeps key (k v)) -> keeps key (proc_bind c k).
Proof.
  intros Hc Hk s. unfold proc_bind. specialize (Hc s).
  destruct (c s) as [s1 [v|msg]]; simpl in *.
  - by rewrite Hk.
  - done.
Qed.

Lemma keeps_when key b (c : Proc unit) : keeps key c -> keeps key (proc_when b c).
Proof. intros Hc. destruct b; [done | apply keeps_ret]. Qed.

Lemma keeps_try {A} key (body : Proc A) (handler : string -> Proc A) :
  keeps key body -> (forall msg, keeps key (handler msg)) -> keeps key (proc_try body handler).
Proof.
  intros Hb Hh s. unfold proc_try. specialize (Hb s).
  destruct (body s) as [s1 [v|msg]]; simpl in *.
  - done.
  - by rewrite Hh.
Qed.

(** Closes [keeps key c] for straight-line pipeline code and a key that
    the code does not store. *)
Ltac keeps_tac :=
  repeat first
    [ apply keeps_bind; [| intros ? ]
    | apply keeps_when
    | apply keeps_try; [| intros ? ]
    | apply keeps_ret
    | apply keeps_call
    | apply keeps_read_flag
    | apply keeps_store; discriminate ].

Lemma enrichment_keeps (P : Providers) (pw : ProcWorld) (key : string) :
  key ∈ ["id"; "meeting_url"; "recipient_email"; "send_email"; "meeting_session"; "error"] ->
  keeps key (enrichment_steps P pw).
Proof.
  intros Hkey. unfold enrichment_steps, status. cbv zeta.
  repeat (apply elem_of_cons in Hkey as [-> | Hkey]); [keeps_tac .. |];
    by apply elem_of_nil in Hkey.
Qed.

Lemma delivery_keeps (pw : ProcWorld) (locals : Locals) (key : string) :
  key ≠ "status" -> keeps key (delivery_step pw locals).
Proof.
  intros Hne. unfold delivery_step, status.
  apply keeps_bind; [apply keeps_read_flag | intros b].
  apply keeps_when, keeps_bind; [by apply keeps_store | intros _].
  apply keeps_try; [| intros; apply keeps_ret].
  apply keeps_bind; [apply keeps_call | intros; apply keeps_call].
Qed.

(** The delivery step never raises. *)
Lemma delivery_returns (pw : ProcWorld) (locals : Locals) (s : Session) :
  snd (delivery_step pw locals s) = Returns tt.
Proof.
  unfold delivery_step, proc_bind, read_flag, proc_when, proc_try, status, store, call, proc_ret.
  destruct (truthy (session_get "send_email" s)); [| done].
  destruct (pw_send_summary pw) as [b|msg]; [| done].
  by destruct (pw_update_meeting pw) as [[]|msg].
Qed.

Lemma audio_check_passes (pw : ProcWorld) (m : MeetingSession) :
  audio_on_disk pw m ->
  negb (match ms_audio_file m with Some _ => pw_audio_exists pw | None => false end) = false.
Proof. intros [[f ->] ->]. done. Qed.

(** A session that reaches the delivery step ends as [completed]. *)
Lemma delivery_reached_completes (P : Providers) (pw : ProcWorld) (m : MeetingSession)
    (session session' : Session) (locals : Locals) :
  reaches_delivery P pw m session session' locals ->
  process_session P pw m session
  = (<["status" := VStr "completed"]> (fst (delivery_step pw locals session')), Returns tt).
Proof.
  intros [Haudio Hsteps]. unfold process_session.
  rewrite (audio_check_passes _ _ Haudio).
  unfold proc_try, proc_bind at 1. rewrite Hsteps.
  unfold proc_bind. pose proof (delivery_returns pw locals session') as Hret.
  destruct (delivery_step pw locals session') as [s2 o]. simpl in Hret. subst o.
  done.
Qed.

(** ** Delivery is fail-soft *)

(** C8. A session that reaches the e-mail step with delivery requested and
    whose send raises still ends as [completed]: the error is swallowed by
    the handler of the inner [try], [_process_recording] returns normally
    and no error is recorded in the session. *)
Theorem delivery_failure_keeps_completed (P : Providers) (pw : ProcWorld)
    (h : list MeetingSession) (l : nat) (m : MeetingSession)
    (session session' : Session) (locals : Locals) (msg : string) :
  session_get "meeting_session" session = VMeetingSession l ->
  h !! l = Some m ->
  reaches_delivery P pw m session session' locals ->
  truthy (session_get "send_email" session) = true ->
  pw_send_summary pw = Raises msg ->
  exists final,
    _process_recording P pw h session = (final, Returns tt) /\
    status_of final = "completed" /\
    status_of final ≠ "error" /\
    final !! "error" = session !! "error".
Proof.
  intros Hms Hl Hreach Hsend Hraise.
  unfold _process_recording. rewrite Hms, Hl.
  rewrite (delivery_reached_completes _ _ _ _ _ _ Hreach).
  eexists. split; [reflexivity |].
  rewrite status_of_insert. split; [done | split; [done |]].
  rewrite lookup_insert_ne by done.
  rewrite (delivery_keeps pw locals "error") by done.
  destruct Hreach as [_ Hsteps].
  pose proof (enrichment_keeps P pw "error" ltac:(set_solver) session) as Hkeep.
  by rewrite Hsteps in Hkeep.
Qed.

Lemma delivery_failure_keeps_completed_witness :
  exists final,
    _process_recording Scenario.full_providers Scenario.pw_smtp_down
      [Scenario.ended_meeting] Scenario.joined_session = (final, Returns tt) /\
    status_of final = "completed" /\
    status_of final ≠ "error" /\
    final !! "error" = Scenario.joined_session !! "error".
Proof.
  apply (delivery_failure_keeps_completed Scenario.full_providers Scenario.pw_smtp_down
           [Scenario.ended_meeting] 0%nat Scenario.ended_meeting Scenario.joined_session
           (fst (enrichment_steps Scenario.full_providers Scenario.pw_smtp_down
                   Scenario.joined_session))
           Scenario.delivery_locals
           "Email credentials not configured").
  - reflexivity.
  - reflexivity.
  - split; [split; [by eexists | reflexivity] | vm_compute; reflexivity].
  - reflexivity.
  - reflexivity.
Defined.

(** ** The wake-up that processes a recording *)

Lemma lookup_session_set (sid sid' : Z) (key : string) (v : Value) (st : State) :
  _sessions (session_set sid key v st) !! sid'
  = if decide (sid = sid') then insert key v <$> _sessions st !! sid'
    else _sessions st !! sid'.
Proof.
  unfold session_set. simpl. case_decide as Heq.
  - subst. by rewrite lookup_alter_eq.
  - by rewrite lookup_alter_ne.
Qed.

Lemma session_meeting_session_inv (session : Session) (st : State) (m : MeetingSession) :
  session_meeting_session session st = Some m ->
  exists l, session_get "meeting_session" session = VMeetingSession l /\ heap st !! l = Some m.
Proof.
  unfold session_meeting_session.
  destruct (session_get "meeting_session" session); try discriminate.
  intros Hl. by eexists.
Qed.

(** When the recorder is no longer active, the wake-up of a session that
    reaches the delivery step leaves it [completed], with its task done. *)
Lemma wake_completes (P : Providers) (sid : Z) (pw : ProcWorld) (st : State)
    (session session' : Session) (m : MeetingSession) (locals : Locals) :
  _sessions st !! sid = Some session ->
  session_meeting_session session st = Some m ->
  is_active st = false ->
  reaches_delivery P pw m (<["status" := VStr "processing"]> session) session' locals ->
  let st' := run_session_wake P sid pw st in
  _sessions st' !! sid
  = Some (<["status" := VStr "completed"]> (fst (delivery_step pw locals session'))) /\
  session_tasks st' !! sid = Some DrvFinished.
Proof.
  intros Hs Hm Hact Hreach. unfold run_session_wake. rewrite Hact.
  rewrite lookup_session_set, decide_True by done. rewrite Hs. simpl.
  destruct (session_meeting_session_inv _ _ _ Hm) as (l & Hl & Hh).
  unfold _process_recording.
  rewrite session_get_insert_ne by done. rewrite Hl, Hh.
  rewrite (delivery_reached_completes _ _ _ _ _ _ Hreach).
  simpl. by rewrite !lookup_insert_eq.
Qed.

(** ** The status snapshot *)

Lemma email_sent_flag_spec (session : Session) :
  email_sent_flag session
  = String.eqb (status_of session) "completed" && truthy (session_get "send_email" session).
Proof.
  unfold email_sent_flag, status_of, session_get.
  by destruct (session !! "status") as [[]|].
Qed.

(** C10. For a session held in the registry, [email_sent] of the status
    snapshot is the conjunction of "the status is [completed]" and "sending
    was requested at start"; it says nothing about the delivery itself: after
    a wake-up whose send raised (and was swallowed) the snapshot still reports
    [email_sent = True]. *)
Theorem email_sent_reports_request (db : Database) (sid : Z) (st : State) (session : Session) :
  _sessions st !! sid = Some session ->
  snap_email_sent <$> get_session_status db sid st
  = Some (String.eqb (status_of session) "completed"
          && truthy (session_get "send_email" session)) /\
  (forall P pw m session' locals msg,
     session_meeting_session session st = Some m ->
     is_active st = false ->
     reaches_delivery P pw m (<["status" := VStr "processing"]> session) session' locals ->
     truthy (session_get "send_email" session) = true ->
     pw_send_summary pw = Raises msg ->
     snap_email_sent <$> get_session_status db sid (run_session_wake P sid pw st) = Some true).
Proof.
  intros Hs. split.
  - unfold get_session_status. rewrite Hs. simpl. by rewrite email_sent_flag_spec.
  - intros P pw m session' locals msg Hm Hact Hreach Hsend _.
    destruct (wake_completes P sid pw st session session' m locals Hs Hm Hact Hreach)
      as [Hfinal _].
    unfold get_session_status. rewrite Hfinal. simpl.
    rewrite email_sent_flag_spec, status_of_insert. simpl.
    unfold session_get. rewrite lookup_insert_ne by done.
    rewrite (delivery_keeps pw locals "send_email") by done.
    destruct Hreach as [_ Hsteps].
    pose proof (enrichment_keeps P pw "send_email" ltac:(set_solver)
                  (<["status" := VStr "processing"]> session)) as Hkeep.
    rewrite Hsteps in Hkeep. simpl in Hkeep. rewrite Hkeep.
    rewrite lookup_insert_ne by done. f_equal. exact Hsend.
Qed.

Lemma email_sent_reports_request_witness :
  snap_email_sent <$> get_session_status ∅ 1 Scenario.ended_state = Some false /\
  snap_email_sent <$> get_session_status ∅ 1
    (run_session_wake Scenario.full_providers 1 Scenario.pw_smtp_down Scenario.ended_state)
  = Some true.
Proof.
  destruct (email_sent_reports_request ∅ 1 Scenario.ended_state Scenario.ended_session)
    as [Hsnap Hwake].
  - vm_compute. reflexivity.
  - split.
    + rewrite Hsnap. vm_compute. reflexivity.
    + apply (Hwake Scenario.full_providers Scenario.pw_smtp_down Scenario.ended_meeting
               (fst (enrichment_steps Scenario.full_providers Scenario.pw_smtp_down
                       (<["status" := VStr "processing"]> Scenario.ended_session)))
               Scenario.delivery_locals "Email credentials not configured").
      * vm_compute. reflexivity.
      * vm_compute. reflexivity.
      * split; [split; [by eexists | reflexivity] | vm_compute; reflexivity].
      * vm_compute. reflexivity.
      * reflexivity.
Defined.

(** ** Running the pipeline *)

Lemma returns_ret {A} (v : A) (s : Session) (Q : Session -> A -> Prop) :
  Q s v -> returns_with (proc_ret v) s Q.
Proof. intros HQ. by exists s, v. Qed.

Lemma returns_bind {A B} (c : Proc A) (k : A -> Proc B) (s : Session)
    (Q : Session -> B -> Prop) :
  returns_with c s (fun s1 v => returns_with (k v) s1 Q) ->
  returns_with (proc_bind c k) s Q.
Proof.
  intros (s1 & v & Hc & s2 & v2 & Hk & HQ). exists s2, v2.
  unfold proc_bind. by rewrite Hc.
Qed.

Lemma returns_store (key : string) (v : Value) (s : Session) (Q : Session -> unit -> Prop) :
  Q (<[key := v]> s) tt -> returns_with (store key v) s Q.
Proof. intros HQ. by exists (<[key := v]> s), tt. Qed.

Lemma returns_status (name : string) (s : Session) (Q : Session -> unit -> Prop) :
  Q (<["status" := VStr name]> s) tt -> returns_with (status name) s Q.
Proof. apply returns_store. Qed.

Lemma returns_call {A} (o : Outcome A) (v : A) (s : Session) (Q : Session -> A -> Prop) :
  o = Returns v -> Q s v -> returns_with (call o) s Q.
Proof. intros -> HQ. by exists s, v. Qed.

Lemma returns_when (b : bool) (c : Proc unit) (s : Session) (Q : Session -> unit -> Prop) :
  (b = true -> returns_with c s Q) -> (b = false -> Q s tt) ->
  returns_with (proc_when b c) s Q.
Proof. destruct b; intros Ht Hf; [by apply Ht | by apply returns_ret, Hf]. Qed.

Lemma returned_inv {A} (o : Outcome A) : returned o = true -> exists v, o = Returns v.
Proof. destruct o; [by eexists | discriminate]. Qed.

(** Steps through straight-line pipeline code whose calls are known, from the
    hypotheses, to return. *)
Ltac pipeline_step :=
  repeat first
    [ apply returns_bind
    | apply returns_status
    | apply returns_store
    | apply returns_ret
    | (eapply returns_call; [eassumption |])
    | progress cbv beta ].

(** When transcription and the unguarded steps return, steps 2 to 12
    return, and the dictionary holds what the guarded providers answered. *)
Lemma enrichment_returns (P : Providers) (pw : ProcWorld) (tr : TranscriptionResult)
    (session : Session) :
  pw_transcribe pw = Returns tr ->
  unguarded_steps_return P pw tr ->
  returns_with (enrichment_steps P pw) session (fun session' _ =>
    session' !! "diarization" = Some (VDiarization (diarize P pw)) /\
    session' !! "topics" = Some (VTopics (segment_topics P pw (tr_text tr))) /\
    session' !! "sentiment" = Some (VSentiment (analyze P pw)) /\
    session' !! "action_items" = Some (VActionItems (extract P pw)) /\
    session' !! "followup_email" = Some (VFollowup (generate_followup P pw))).
Proof.
  intros Htr (Halign & Hsum & Hmet & Hrep & Hsave & Hstore).
  apply returned_inv in Hsum as [summary Hsum].
  apply returned_inv in Hmet as [metrics Hmet].
  apply returned_inv in Hrep as [pdf_path Hrep].
  apply returned_inv in Hsave as [record_id Hsave].
  unfold enrichment_steps. cbv zeta. pipeline_step.
  apply returns_when.
  - intros Hcond.
    assert (exists aligned, pw_align pw = Returns aligned) as [aligned Hal].
    { destruct Halign as [Hd | [Ht | Hal]]; [| | by apply returned_inv].
      - by rewrite Hd in Hcond.
      - rewrite Ht in Hcond. by destruct (diar_segments (diarize P pw)). }
    pipeline_step.
    apply returns_when.
    + intros Hinit. destruct (returned_inv _ (Hstore Hinit)) as [n Hn].
      pipeline_step. repeat split; by simplify_map_eq.
    + intros _. pipeline_step. repeat split; by simplify_map_eq.
  - intros _. pipeline_step.
    apply returns_when.
    + intros Hinit. destruct (returned_inv _ (Hstore Hinit)) as [n Hn].
      pipeline_step. repeat split; by simplify_map_eq.
    + intros _. pipeline_step. repeat split; by simplify_map_eq.
Qed.

(** ** The guarded providers fall back to their defaults *)








(** ** Which stages are fail-soft *)




(** ** The waiting room *)

Lemma wait_loop_body (timeout elapsed : Z) (polls : nat -> PollObs) (c : WaitClock) :
  wait_loop timeout elapsed polls c =
  if decide (elapsed < timeout) then
    let obs := polls (wc_polls c) in
    let c2 := next_poll (sleep check_interval c) in
    if po_in_meeting obs then (Returns true, c2)
    else match po_page_content obs with
         | Raises msg => (Raises msg, c2)
         | Returns page_content =>
             if entry_denied page_content then (Returns false, c2)
             else wait_loop timeout (elapsed + check_interval) polls c2
         end
  else (Returns false, c).
Proof. rewrite wait_loop_equation_1. by destruct (decide (elapsed < timeout)). Qed.

(** The clock after [n] more rounds of sleeping and polling. *)
Lemma clock_after_round (c : WaitClock) (n : nat) :
  {| wc_slept := wc_slept (next_poll (sleep check_interval c)) + 5 * Z.of_nat n;
     wc_polls := wc_polls (next_poll (sleep check_interval c)) + n |}
  = {| wc_slept := wc_slept c + 5 * Z.of_nat (S n); wc_polls := wc_polls c + S n |}.
Proof. unfold check_interval. simpl. f_equal; lia. Qed.

(** While the polls stay pending the loop only sleeps and polls. *)
Lemma wait_loop_skip (k : nat) (timeout elapsed : Z) (polls : nat -> PollObs) (c : WaitClock) :
  (forall j, (j < k)%nat -> pending (polls (wc_polls c + j)%nat)) ->
  elapsed + 5 * Z.of_nat k < timeout + 5 ->
  wait_loop timeout elapsed polls c
  = wait_loop timeout (elapsed + 5 * Z.of_nat k) polls
      {| wc_slept := wc_slept c + 5 * Z.of_nat k; wc_polls := wc_polls c + k |}.
Proof.
  revert elapsed c. induction k as [|k IH]; intros elapsed c Hpend Hle.
  - destruct c as [slept n]. simpl. f_equal; [lia | f_equal; lia].
  - rewrite wait_loop_body. rewrite decide_True by lia. cbv zeta.
    destruct (Hpend 0%nat ltac:(lia)) as (Hin & page & Hpage & Hden).
    rewrite Nat.add_0_r in Hin, Hpage. rewrite Hin, Hpage, Hden.
    rewrite IH.
    + rewrite clock_after_round. f_equal. unfold check_interval. lia.
    + intros j Hj. simpl wc_polls.
      replace (S (wc_polls c) + j)%nat with (wc_polls c + S j)%nat by lia.
      apply Hpend. lia.
    + unfold check_interval. lia.
Qed.

(** Admission that stays pending: the wait gives up after
    [ceil (timeout / 5)] polls. *)
Lemma wait_forever_pending (timeout : Z) (polls : nat -> PollObs) :
  (forall k, pending (polls k)) ->
  let n := Z.to_nat ((timeout + 4) / 5) in
  _wait_for_admission timeout polls clock0
  = (Returns false, {| wc_slept := 5 * Z.of_nat n; wc_polls := n |}).
Proof.
  intros Hpend n. unfold _wait_for_admission.
  assert (Hn : 0 <= timeout -> Z.of_nat n = (timeout + 4) / 5).
  { intros Hpos. subst n. rewrite Z2Nat.id; [done |]. apply Z.div_pos; lia. }
  destruct (decide (0 < timeout)) as [Hpos | Hneg].
  - pose proof (Z.mod_pos_bound (timeout + 4) 5 ltac:(lia)) as Hmod.
    pose proof (Z.div_mod (timeout + 4) 5 ltac:(lia)) as Hdiv.
    specialize (Hn ltac:(lia)).
    rewrite (wait_loop_skip n); [| intros; apply Hpend | lia].
    rewrite wait_loop_body. rewrite decide_False by (simpl; lia).
    reflexivity.
  - rewrite wait_loop_body. rewrite decide_False by lia.
    assert (n = 0%nat) as ->.
    { subst n. destruct (decide (timeout + 4 < 0)).
      - rewrite Z2Nat.nonpos; [done |]. apply Z.lt_le_incl, Z.div_lt_upper_bound; lia.
      - rewrite Z.div_small; [done | lia]. }
    reflexivity.
Qed.

(** The poll that ends the wait, after [k] pending ones. *)
Lemma wait_decided_at (k : nat) (timeout : Z) (polls : nat -> PollObs) :
  (forall j, (j < k)%nat -> pending (polls j)) ->
  5 * Z.of_nat k < timeout ->
  let c := {| wc_slept := 5 * Z.of_nat (S k); wc_polls := S k |} in
  (admitted (polls k) -> _wait_for_admission timeout polls clock0 = (Returns true, c)) /\
  (denied (polls k) -> _wait_for_admission timeout polls clock0 = (Returns false, c)).
Proof.
  intros Hpend Hlt c. unfold _wait_for_admission.
  rewrite (wait_loop_skip k); [| done | lia].
  set (c' := {| wc_slept := wc_slept clock0 + 5 * Z.of_nat k;
                wc_polls := (wc_polls clock0 + k)%nat |}).
  rewrite wait_loop_body. rewrite decide_True by lia. cbv zeta.
  change (wc_polls c') with k.
  assert (Hc : next_poll (sleep check_interval c') = c).
  { subst c c'. unfold next_poll, sleep, check_interval. simpl. f_equal. lia. }
  rewrite Hc. split.
  - intros Hin. unfold admitted in Hin. by rewrite Hin.
  - intros (Hin & page & Hpage & Hden). by rewrite Hin, Hpage, Hden.
Qed.

Lemma current_session_inv (st : State) :
  is_Some (current_session st) ->
  exists l m, rec_session st = Some l /\ heap st !! l = Some m.
Proof.
  unfold current_session. intros [m Hm].
  destruct (rec_session st) as [l|]; [| discriminate]. by exists l, m.
Qed.

(** From the waiting room, [join_meeting] answers what the wait answers. *)
Lemma join_meeting_waits (timeout : Z) (browser : bool) (url : string) (jw : JoinWorld)
    (admitted : bool) (c : WaitClock) :
  detect_platform url ≠ UNKNOWN ->
  browser = true \/ jw_initialize_browser jw = Returns tt ->
  jw_enter_lobby jw = Returns false ->
  _wait_for_admission timeout (jw_polls jw) clock0 = (Returns admitted, c) ->
  join_meeting timeout browser url jw = (Returns admitted, c, true).
Proof.
  intros Hplat Hbrowser Hlobby Hwait. unfold join_meeting, _join_platform.
  rewrite Hlobby, Hwait.
  assert ((if browser then Returns tt else jw_initialize_browser jw) = Returns tt) as ->.
  { destruct Hbrowser as [-> | Hinit]; [done |]. by destruct browser. }
  by destruct (detect_platform url).
Qed.

Arguments session_set : simpl never.
Arguments set_task : simpl never.

Lemma sessions_set_task sid d st : _sessions (set_task sid d st) = _sessions st.
Proof. reflexivity. Qed.
Lemma tasks_set_task sid d st : session_tasks (set_task sid d st) !! sid = Some d.
Proof. unfold set_task. simpl. by rewrite lookup_insert_eq. Qed.
Lemma tasks_session_set sid key v st : session_tasks (session_set sid key v st) = session_tasks st.
Proof. reflexivity. Qed.
(** A join that answers [False] ends the session as [error], with the one
    message the recorder has for it. *)
Lemma joined_refused (cfg : Config) (sid : Z) (jw : JoinWorld) (now : Z) (aw : AudioWorld)
    (st : State) (session : Session) (c : WaitClock) (browser' : bool) :
  _sessions st !! sid = Some session ->
  is_Some (current_session st) ->
  join_meeting (waiting_room_timeout_seconds cfg) (joiner_browser st)
    (session_str "meeting_url" session) jw = (Returns false, c, browser') ->
  let st' := run_session_joined cfg sid jw now aw st in
  session_status sid st' = Some "error" /\
  (_sessions st' !! sid) ≫= (fun s : Session => s !! "error")
  = Some (VStr "Failed to join meeting") /\
  session_tasks st' !! sid = Some DrvFinished.
Proof.
  intros Hs Hcur Hjoin.
  destruct (current_session_inv st Hcur) as (l & m & Hl & Hm).
  unfold run_session_joined. rewrite Hs.
  unfold recorder_start_session_finish. rewrite Hjoin.
  unfold recorder_start_failed, update_rec_session. simpl. rewrite Hl. simpl.
  rewrite Hl. simpl.
  rewrite list_lookup_alter_eq, Hm. simpl.
  unfold session_status. repeat split.
  - rewrite sessions_set_task, !lookup_session_set, !decide_True by done.
    simpl. rewrite Hs. simpl.
    by rewrite status_of_insert_ne, status_of_insert.
  - rewrite !lookup_alter_eq, Hs. simpl. by rewrite lookup_insert_eq.
  - by rewrite lookup_insert_eq.
Qed.

Lemma start_recording_returns (aw : AudioWorld) (st : State) :
  audio_starts aw st ->
  exists file st',
    start_recording aw st = (Returns file, st') /\
    rec_session st' = rec_session st /\ heap st' = heap st /\
    _sessions st' = _sessions st /\ session_tasks st' = session_tasks st /\
    monitor_tasks st' = monitor_tasks st.
Proof.
  intros Haudio. unfold start_recording.
  destruct (audio_recording st) eqn:Hrec.
  - by do 2 eexists.
  - destruct Haudio as [? | ->]; [congruence |]. by do 2 eexists.
Qed.

(** A join that answers [True] puts the session in [recording], the
    recorder active, when the audio capture starts. *)
Lemma joined_admitted (cfg : Config) (sid : Z) (jw : JoinWorld) (now : Z) (aw : AudioWorld)
    (st : State) (session : Session) (c : WaitClock) (browser' : bool) :
  _sessions st !! sid = Some session ->
  is_Some (current_session st) ->
  audio_starts aw st ->
  join_meeting (waiting_room_timeout_seconds cfg) (joiner_browser st)
    (session_str "meeting_url" session) jw = (Returns true, c, browser') ->
  let st' := run_session_joined cfg sid jw now aw st in
  session_status sid st' = Some "recording" /\
  is_active st' = true /\
  session_tasks st' !! sid = Some DrvWaiting.
Proof.
  intros Hs Hcur Haudio Hjoin.
  destruct (current_session_inv st Hcur) as (l & m & Hl & Hm).
  unfold run_session_joined. rewrite Hs.
  unfold recorder_start_session_finish. rewrite Hjoin.
  set (st2 := update_rec_session _ (with_joiner_browser browser' st)).
  assert (Hst2 : rec_session st2 = Some l /\
                 heap st2 = alter (fun m => ms_set_start_time (Some now)
                                              (ms_set_state IN_MEETING m)) l (heap st) /\
                 _sessions st2 = _sessions st).
  { subst st2. unfold update_rec_session. simpl. rewrite Hl. by simpl. }
  destruct Hst2 as (Hl2 & Hh2 & Hs2).
  destruct (start_recording_returns aw st2) as (file & st3 & -> & Hl3 & Hh3 & Hs3 & _).
  { subst st2. unfold audio_starts, update_rec_session. simpl. rewrite Hl. by simpl. }
  rewrite Hl2 in Hl3. rewrite Hh2 in Hh3. rewrite Hs2 in Hs3.
  unfold update_rec_session. rewrite Hl3. simpl. rewrite Hl3. simpl.
  rewrite Hh3, !list_lookup_alter_eq, Hm. simpl.
  unfold session_status, is_active, current_session. repeat split.
  - rewrite sessions_set_task, !lookup_session_set, !decide_True by done.
    simpl. rewrite Hs3, Hs. simpl. by rewrite status_of_insert.
  - simpl. rewrite Hl3. simpl. rewrite !list_lookup_alter_eq, Hm. by simpl.
  - by rewrite lookup_insert_eq.
Qed.

(** C5, as the code has it. For a session at the door of its meeting whose
    join click leaves it in the waiting room: (1) while admission stays
    pending the joiner polls every 5 seconds, whatever the end-detection
    interval, and gives up after [ceil (timeout / 5)] polls, that is after
    sleeping [5 * ceil (timeout / 5) >= timeout] seconds and not one poll
    earlier; (2) a denial seen at a poll made before the timeout ends the wait
    at that poll; in both cases the session ends as [error] with the same
    message ["Failed to join meeting"]; (3) an admission seen at such a poll
    puts the session in [recording] when the audio capture starts. *)
Theorem waiting_room_protocol (cfg : Config) (sid : Z) (jw : JoinWorld) (now : Z)
    (aw : AudioWorld) (st : State) (session : Session) :
  in_waiting_room sid jw st session ->
  let timeout := waiting_room_timeout_seconds cfg in
  let st' := run_session_joined cfg sid jw now aw st in
  let failed :=
    session_status sid st' = Some "error" /\
    (_sessions st' !! sid) ≫= (fun s : Session => s !! "error")
    = Some (VStr "Failed to join meeting") in
  ((forall k, pending (jw_polls jw k)) ->
     let n := Z.to_nat ((timeout + 4) / 5) in
     _wait_for_admission timeout (jw_polls jw) clock0
     = (Returns false, {| wc_slept := check_interval * Z.of_nat n; wc_polls := n |}) /\
     timeout <= check_interval * Z.of_nat n /\
     (n = 0%nat \/ check_interval * (Z.of_nat n - 1) < timeout) /\
     failed) /\
  (forall k,
     (forall j, (j < k)%nat -> pending (jw_polls jw j)) ->
     check_interval * Z.of_nat k < timeout ->
     let c := {| wc_slept := check_interval * Z.of_nat (S k); wc_polls := S k |} in
     (denied (jw_polls jw k) ->
        _wait_for_admission timeout (jw_polls jw) clock0 = (Returns false, c) /\ failed) /\
     (admitted (jw_polls jw k) ->
        audio_starts aw st ->
        _wait_for_admission timeout (jw_polls jw) clock0 = (Returns true, c) /\
        session_status sid st' = Some "recording" /\ is_active st' = true)).
Proof.
  intros (Hs & Hplat & Hcur & Hbrowser & Hlobby) timeout st' failed.
  assert (Hfail : forall c, _wait_for_admission timeout (jw_polls jw) clock0 = (Returns false, c) ->
                            failed).
  { intros c Hwait.
    pose proof (join_meeting_waits timeout (joiner_browser st) _ jw false c
                  Hplat Hbrowser Hlobby Hwait) as Hjoin.
    destruct (joined_refused cfg sid jw now aw st session c true Hs Hcur Hjoin)
      as (Hstatus & Herror & _).
    by split. }
  unfold check_interval. split.
  - intros Hpend. set (n := Z.to_nat ((timeout + 4) / 5)).
    pose proof (wait_forever_pending timeout (jw_polls jw) Hpend) as Hwait.
    cbv zeta in Hwait. fold n in Hwait.
    split; [exact Hwait |]. split; [| split; [| by apply (Hfail _ Hwait)]].
    + subst n. destruct (decide (0 <= timeout + 4)) as [Hpos | Hneg].
      * rewrite Z2Nat.id by (apply Z.div_pos; lia).
        pose proof (Z.mod_pos_bound (timeout + 4) 5 ltac:(lia)).
        pose proof (Z.div_mod (timeout + 4) 5 ltac:(lia)). lia.
      * rewrite Z2Nat.nonpos; [lia |].
        apply Z.lt_le_incl, Z.div_lt_upper_bound; lia.
    + destruct n as [|n'] eqn:Hn; [by left | right].
      assert (0 < (timeout + 4) / 5) as Hq by lia.
      assert (Z.of_nat (S n') = (timeout + 4) / 5) as ->.
      { rewrite <- Hn. subst n. rewrite Z2Nat.id; lia. }
      pose proof (Z.mod_pos_bound (timeout + 4) 5 ltac:(lia)).
      pose proof (Z.div_mod (timeout + 4) 5 ltac:(lia)). lia.
  - intros k Hpend Hlt.
    set (c := {| wc_slept := 5 * Z.of_nat (S k); wc_polls := S k |}).
    destruct (wait_decided_at k timeout (jw_polls jw) Hpend Hlt) as [Hadm Hden].
    cbv zeta in Hadm, Hden. fold c in Hadm, Hden. split.
    + intros Hdenied. split; [by apply Hden |]. by apply (Hfail c), Hden.
    + intros Hadmitted Haudio. split; [by apply Hadm |].
      pose proof (join_meeting_waits timeout (joiner_browser st) _ jw true c
                    Hplat Hbrowser Hlobby (Hadm Hadmitted)) as Hjoin.
      destruct (joined_admitted cfg sid jw now aw st session c true Hs Hcur Haudio Hjoin)
        as (Hstatus & Hactive & _).
      by split.
Qed.

Lemma quiet_lobby_pending (k : nat) : pending (Scenario.quiet_lobby k).
Proof. split; [reflexivity |]. eexists. split; reflexivity. Qed.

Lemma waiting_room_protocol_witness :
  (_wait_for_admission 30 Scenario.quiet_lobby clock0
   = (Returns false, {| wc_slept := 30; wc_polls := 6 |}) /\
   session_status 1
     (run_session_joined Scenario.one_minute 1 Scenario.jw_pending 100 Scenario.aw_ok
        Scenario.joining_state) = Some "error") /\
  (_wait_for_admission 30 Scenario.denying_lobby clock0
   = (Returns false, {| wc_slept := 5; wc_polls := 1 |}) /\
   session_status 1
     (run_session_joined Scenario.one_minute 1 Scenario.jw_denied 100 Scenario.aw_ok
        Scenario.joining_state) = Some "error") /\
  (_wait_for_admission 30 Scenario.late_lobby clock0
   = (Returns true, {| wc_slept := 15; wc_polls := 3 |}) /\
   session_status 1
     (run_session_joined Scenario.one_minute 1 Scenario.jw_admitted_late 100 Scenario.aw_ok
        Scenario.joining_state) = Some "recording").
Proof.
  assert (Hroom : forall jw, jw_initialize_browser jw = Returns tt ->
                    jw_enter_lobby jw = Returns false ->
                    in_waiting_room 1 jw Scenario.joining_state Scenario.joining_session).
  { intros jw Hinit Hlobby. split; [reflexivity |]. split; [by vm_compute |].
    split; [by eexists |]. split; [by right | done]. }
  split; [| split].
  - destruct (waiting_room_protocol Scenario.one_minute 1 Scenario.jw_pending 100
                Scenario.aw_ok Scenario.joining_state Scenario.joining_session
                (Hroom Scenario.jw_pending eq_refl eq_refl)) as [Hpending _].
    destruct (Hpending quiet_lobby_pending) as (Hwait & _ & _ & Hstatus & _).
    split; [exact Hwait | exact Hstatus].
  - destruct (waiting_room_protocol Scenario.one_minute 1 Scenario.jw_denied 100
                Scenario.aw_ok Scenario.joining_state Scenario.joining_session
                (Hroom Scenario.jw_denied eq_refl eq_refl)) as [_ Hdecided].
    destruct (Hdecided 0%nat) as [Hdenied _].
    + intros j Hj. lia.
    + reflexivity.
    + destruct Hdenied as (Hwait & Hstatus & _).
      * split; [reflexivity |]. eexists. split; reflexivity.
      * split; [exact Hwait | exact Hstatus].
  - destruct (waiting_room_protocol Scenario.one_minute 1 Scenario.jw_admitted_late 100
                Scenario.aw_ok Scenario.joining_state Scenario.joining_session
                (Hroom Scenario.jw_admitted_late eq_refl eq_refl)) as [_ Hdecided].
    destruct (Hdecided 2%nat) as [_ Hadmitted].
    + intros j Hj. destruct j as [|[|j]]; [| | lia].
      * split; [reflexivity |]. eexists. split; reflexivity.
      * split; [reflexivity |]. eexists. split; reflexivity.
    + reflexivity.
    + destruct Hadmitted as (Hwait & Hstatus & _).
      * reflexivity.
      * by right.
      * split; [exact Hwait | exact Hstatus].
Defined.

(** C5 as stated fails on two counts. With an end-detection interval of 10
    seconds and a timeout of 30, a wait that stays pending polls 6 times, 5
    seconds apart; and a timeout and a denial leave the very same session
    behind, with the message ["Failed to join meeting"]: no reason
    [AdmissionTimeout] or [AdmissionDenied] is recorded anywhere. *)
Lemma admission_counterexample :
  let timed_out :=
    run_session_joined Scenario.one_minute 1 Scenario.jw_pending 100 Scenario.aw_ok
      Scenario.joining_state in
  let refused :=
    run_session_joined Scenario.one_minute 1 Scenario.jw_denied 100 Scenario.aw_ok
      Scenario.joining_state in
  end_detection_interval_seconds Scenario.one_minute = 10 /\
  waiting_room_timeout_seconds Scenario.one_minute = 30 /\
  snd (_wait_for_admission 30 Scenario.quiet_lobby clock0)
  = {| wc_slept := 30; wc_polls := 6 |} /\
  wc_polls (snd (_wait_for_admission 30 Scenario.quiet_lobby clock0)) ≠ 3%nat /\
  _sessions timed_out !! 1 = _sessions refused !! 1 /\
  (_sessions timed_out !! 1) ≫= (fun s : Session => s !! "error")
  = Some (VStr "Failed to join meeting").
Proof.
  cbv zeta. split; [reflexivity |]. split; [reflexivity |].
  split; [by vm_compute |]. split; [by vm_compute |].
  split; by vm_compute.
Qed.

(** ** Ending a recording *)

Arguments set_monitor : simpl never.

Lemma close_session_state (now : Z) (m : MeetingSession) :
  ms_state (close_session now m) = ENDED.
Proof. unfold close_session. simpl. by destruct (ms_start_time m). Qed.

Lemma close_session_audio_file (now : Z) (m : MeetingSession) :
  ms_audio_file (close_session now m) = ms_audio_file m.
Proof. unfold close_session. simpl. by destruct (ms_start_time m). Qed.

(** Cancelling the monitor only touches the monitor tasks. *)
Lemma cancel_monitoring_task_frame (st : State) :
  let st' := snd (cancel_monitoring_task st) in
  rec_session st' = rec_session st /\ heap st' = heap st /\
  _sessions st' = _sessions st /\ session_tasks st' = session_tasks st /\
  _session_counter st' = _session_counter st /\
  audio_recording st' = audio_recording st.
Proof.
  unfold cancel_monitoring_task.
  destruct (rec_monitoring_task st) as [tid|]; [| done].
  by destruct (monitor_tasks st !! tid) as [[]|].
Qed.

(** When the monitor can be cancelled and the teardown answers,
    [end_session] returns and closes the recorder's session object. *)
Lemma end_session_returns (now : Z) (td : Teardown) (st : State) (l : nat) :
  rec_session st = Some l ->
  fst (cancel_monitoring_task st) = Returns tt ->
  td_stop_recording td = Returns tt ->
  td_leave_meeting td = Returns tt ->
  exists st',
    end_session now td st = (Returns tt, st') /\
    rec_session st' = Some l /\
    heap st' = alter (close_session now) l (heap st) /\
    _sessions st' = _sessions st /\
    session_tasks st' = session_tasks st /\
    _session_counter st' = _session_counter st /\
    monitor_tasks st' = monitor_tasks (snd (cancel_monitoring_task st)).
Proof.
  intros Hl Hcancel Hstop Hleave. unfold end_session. rewrite Hl.
  pose proof (cancel_monitoring_task_frame st) as (Hl1 & Hh1 & Hs1 & Ht1 & Hc1 & _).
  destruct (cancel_monitoring_task st) as [[[]|msg] st1]; [| discriminate].
  simpl in *. rewrite Hstop, Hleave.
  destruct (audio_recording st1); simpl; eexists; (split; [reflexivity |]);
    unfold update_rec_session; simpl; rewrite Hl1, Hl; simpl;
    rewrite Hh1; repeat split; congruence.
Qed.


(** After [end_session] has closed its session object the recorder is no
    longer active. *)
Lemma closed_not_active (now : Z) (st st' : State) (l : nat) :
  rec_session st' = Some l ->
  heap st' = alter (close_session now) l (heap st) ->
  is_active st' = false /\
  (is_Some (heap st !! l) -> ms_state <$> current_session st' = Some ENDED).
Proof.
  intros Hl Hh. unfold is_active, current_session. rewrite Hl. simpl.
  rewrite Hh, list_lookup_alter_eq.
  destruct (heap st !! l) as [m|]; simpl.
  - rewrite close_session_state. by split.
  - split; [done |]. by intros [? ?].
Qed.

(** ** What a wake-up of the driving task leaves behind *)

Lemma record_error_eq (msg : string) (s : Session) :
  proc_bind (status "error") (fun _ => store "error" (VStr msg)) s
  = (<["error" := VStr msg]> (<["status" := VStr "error"]> s), Returns tt).
Proof. reflexivity. Qed.

Lemma status_of_recorded_error (msg : string) (s : Session) :
  status_of (<["error" := VStr msg]> (<["status" := VStr "error"]> s)) = "error".
Proof. by rewrite status_of_insert_ne, status_of_insert. Qed.

(** The processing of a recording always returns, and leaves [completed]
    or [error]. *)
Lemma process_session_terminal (P : Providers) (pw : ProcWorld) (m : MeetingSession)
    (session : Session) :
  exists session',
    process_session P pw m session = (session', Returns tt) /\ terminal session'.
Proof.
  unfold process_session, terminal.
  destruct (negb _).
  - rewrite record_error_eq. eexists. split; [reflexivity |]. right.
    apply status_of_recorded_error.
  - unfold proc_try, proc_bind at 1.
    destruct (enrichment_steps P pw session) as [s1 [locals|msg]].
    + unfold proc_bind. pose proof (delivery_returns pw locals s1) as Hret.
      destruct (delivery_step pw locals s1) as [s2 o]. cbn [snd] in Hret. subst o.
      unfold status, store. eexists. split; [reflexivity |].
      left. by rewrite status_of_insert.
    + unfold processing_failed. rewrite record_error_eq.
      eexists. split; [reflexivity |]. right. apply status_of_recorded_error.
Qed.

(** Once the recorder is inactive, the wake-up of a registered session ends
    its task and leaves the session [completed] or [error]; the other
    sessions, the recorder and the tasks of the monitors are not touched. *)
Lemma wake_terminal (P : Providers) (sid : Z) (pw : ProcWorld) (st : State)
    (session : Session) :
  _sessions st !! sid = Some session ->
  is_active st = false ->
  let st' := run_session_wake P sid pw st in
  (exists session', _sessions st' !! sid = Some session' /\ terminal session') /\
  session_tasks st' !! sid = Some DrvFinished /\
  (forall sid', sid' ≠ sid ->
     _sessions st' !! sid' = _sessions st !! sid' /\
     session_tasks st' !! sid' = session_tasks st !! sid').
Proof.
  intros Hs Hact. unfold run_session_wake. rewrite Hact.
  rewrite lookup_session_set, decide_True by done. rewrite Hs. simpl.
  set (s1 := <["status" := VStr "processing"]> session).
  assert (Hproc :
    (exists s2, _process_recording P pw (heap st) s1 = (s2, Returns tt) /\ terminal s2) \/
    (exists msg, _process_recording P pw (heap st) s1 = (s1, Raises msg))).
  { unfold _process_recording.
    destruct (session_get "meeting_session" s1); try (right; by eexists).
    destruct (_ !! l) as [m|]; [| right; by eexists].
    left. apply process_session_terminal. }
  destruct Hproc as [(s2 & -> & Hterm) | (msg & ->)].
  - split; [| split].
    + exists s2. rewrite sessions_set_task. simpl. by rewrite lookup_insert_eq.
    + by rewrite tasks_set_task.
    + intros sid' Hne. rewrite sessions_set_task. unfold set_task. simpl.
      rewrite !lookup_insert_ne by done. by rewrite lookup_alter_ne.
  - split; [| split].
    + rewrite sessions_set_task. unfold run_session_failed.
      rewrite !lookup_session_set, !decide_True by done. simpl.
      rewrite lookup_insert_eq. simpl. eexists. split; [reflexivity |].
      right. apply status_of_recorded_error.
    + by rewrite tasks_set_task.
    + intros sid' Hne. rewrite sessions_set_task. unfold set_task, run_session_failed. simpl.
      rewrite !lookup_insert_ne by done.
      by rewrite !lookup_alter_ne, lookup_insert_ne, lookup_alter_ne.
Qed.

(** ** The end-detection monitor *)





(** ** What each operation leaves alone *)

Lemma same_registry_refl (st : State) : same_registry st st.
Proof. by repeat split. Qed.

Lemma same_registry_trans (st1 st2 st3 : State) :
  same_registry st1 st2 -> same_registry st2 st3 -> same_registry st1 st3.
Proof. intros (? & ? & ?) (? & ? & ?). repeat split; congruence. Qed.

Lemma update_rec_session_frame (f : MeetingSession -> MeetingSession) (st : State) :
  same_registry st (update_rec_session f st).
Proof. unfold update_rec_session. by destruct (rec_session st). Qed.

Lemma set_monitor_frame (tid : nat) (mon : MonitorState) (st : State) :
  same_registry st (set_monitor tid mon st).
Proof. by repeat split. Qed.

Lemma end_session_frame (now : Z) (td : Teardown) (st : State) :
  same_registry st (snd (end_session now td st)).
Proof.
  unfold end_session.
  destruct (rec_session st) as [l|]; [| apply same_registry_refl].
  pose proof (cancel_monitoring_task_frame st) as (_ & _ & Hs & Ht & Hc & _).
  destruct (cancel_monitoring_task st) as [[[]|msg] st1]; simpl in *; [| by repeat split].
  destruct (audio_recording st1); simpl;
    destruct (td_stop_recording td), (td_leave_meeting td); simpl;
    try (by repeat split);
    (eapply same_registry_trans; [| apply update_rec_session_frame]); by repeat split.
Qed.

Lemma monitor_loop_head_frame (tid : nat) (start_time : Z) (st : State) :
  same_registry st (monitor_loop_head tid start_time st).
Proof. unfold monitor_loop_head. destruct (is_active st); apply set_monitor_frame. Qed.

Lemma monitor_tick_frame (cfg : Config) (tid : nat) (now : Z) (meeting_ended : bool)
    (td : Teardown) (st : State) :
  same_registry st (monitor_tick cfg tid now meeting_ended td st).
Proof.
  unfold monitor_tick.
  pose proof (end_session_frame now td st) as Hend.
  destruct (monitor_tasks st !! tid) as [[]|]; try apply same_registry_refl.
  - apply monitor_loop_head_frame.
  - destruct (_ <=? _).
    + destruct (end_session now td st) as [[[]|msg] st1]; simpl in Hend;
        (eapply same_registry_trans; [exact Hend | apply set_monitor_frame]).
    + destruct (_ && _); [| apply monitor_loop_head_frame].
      destruct (end_session now td st) as [[[]|msg] st1]; simpl in Hend;
        (eapply same_registry_trans; [exact Hend |]);
        [apply set_monitor_frame | apply monitor_loop_head_frame].
Qed.

Lemma start_recording_frame (aw : AudioWorld) (st : State) :
  same_registry st (snd (start_recording aw st)).
Proof.
  unfold start_recording. destruct (audio_recording st); [apply same_registry_refl |].
  by destruct (aw_stream_start aw).
Qed.

Lemma recorder_start_session_finish_frame (cfg : Config) (url : string) (jw : JoinWorld)
    (now : Z) (aw : AudioWorld) (st : State) :
  same_registry st (snd (recorder_start_session_finish cfg url jw now aw st)).
Proof.
  unfold recorder_start_session_finish, recorder_start_failed.
  destruct (join_meeting _ _ _ _) as [[[[]|msg] c] browser']; simpl.
  - set (st2 := update_rec_session _ (with_joiner_browser browser' st)).
    assert (Hst2 : same_registry st st2).
    { eapply same_registry_trans; [| apply update_rec_session_frame]. by repeat split. }
    pose proof (start_recording_frame aw st2) as Hrec.
    destruct (start_recording aw st2) as [[file|msg] st3]; simpl in *.
    + eapply same_registry_trans; [exact Hst2 |].
      eapply same_registry_trans; [exact Hrec |].
      set (st4 := update_rec_session _ st3).
      pose proof (update_rec_session_frame
                    (fun m => ms_set_state RECORDING (ms_set_audio_file file m)) st3) as H4.
      fold st4 in H4. destruct H4 as (? & ? & ?). by repeat split.
    + eapply same_registry_trans; [exact Hst2 |].
      eapply same_registry_trans; [exact Hrec |]. apply update_rec_session_frame.
  - eapply same_registry_trans; [| apply update_rec_session_frame]. by repeat split.
  - eapply same_registry_trans; [| apply update_rec_session_frame]. by repeat split.
Qed.

Lemma only_touches_refl (sid : Z) (st : State) : only_touches sid st st.
Proof. by repeat split. Qed.

Lemma same_registry_only_touches (sid : Z) (st st' : State) :
  same_registry st st' -> only_touches sid st st'.
Proof. intros (Hs & Ht & Hc). unfold only_touches. rewrite Hs, Ht, Hc. by repeat split. Qed.

Lemma only_touches_trans (sid : Z) (st1 st2 st3 : State) :
  only_touches sid st1 st2 -> only_touches sid st2 st3 -> only_touches sid st1 st3.
Proof.
  intros (Hc1 & Ho1 & Hd1) (Hc2 & Ho2 & Hd2). split; [congruence |]. split.
  - intros sid' Hne. destruct (Ho1 sid' Hne) as [E1 E2], (Ho2 sid' Hne) as [E3 E4].
    split; congruence.
  - by rewrite Hd2.
Qed.

Lemma session_set_only_touches (sid : Z) (key : string) (v : Value) (st : State) :
  only_touches sid st (session_set sid key v st).
Proof.
  split; [done |]. split.
  - intros sid' Hne. by rewrite lookup_session_set, decide_False.
  - rewrite lookup_session_set, decide_True by done. by rewrite fmap_is_Some.
Qed.

Lemma set_task_only_touches (sid : Z) (d : DriverState) (st : State) :
  only_touches sid st (set_task sid d st).
Proof.
  split; [done |]. split; [| done].
  intros sid' Hne. unfold set_task. simpl. by rewrite lookup_insert_ne.
Qed.

Lemma run_session_failed_only_touches (sid : Z) (msg : string) (st : State) :
  only_touches sid st (run_session_failed sid msg st).
Proof.
  unfold run_session_failed.
  eapply only_touches_trans; apply session_set_only_touches.
Qed.

Lemma run_session_start_only_touches (sid : Z) (st : State) :
  only_touches sid st (run_session_start sid st).
Proof.
  unfold run_session_start. destruct (_sessions st !! sid) as [session|].
  - eapply only_touches_trans; [| apply set_task_only_touches].
    eapply only_touches_trans; [apply session_set_only_touches |].
    by apply same_registry_only_touches.
  - apply set_task_only_touches.
Qed.

Lemma run_session_joined_only_touches (cfg : Config) (sid : Z) (jw : JoinWorld) (now : Z)
    (aw : AudioWorld) (st : State) :
  only_touches sid st (run_session_joined cfg sid jw now aw st).
Proof.
  unfold run_session_joined.
  destruct (_sessions st !! sid) as [session|]; [| apply only_touches_refl].
  pose proof (recorder_start_session_finish_frame cfg (session_str "meeting_url" session)
                jw now aw st) as Hframe.
  destruct (recorder_start_session_finish _ _ _ _ _ _) as [result st1]. simpl in Hframe.
  apply (same_registry_only_touches sid) in Hframe.
  eapply only_touches_trans; [exact Hframe |].
  destruct (result ≫= _) as [[l m]|].
  - destruct (bool_decide _);
      (eapply only_touches_trans; [| apply set_task_only_touches]);
      repeat (eapply only_touches_trans; [| apply session_set_only_touches]);
      apply only_touches_refl.
  - eapply only_touches_trans; [| apply set_task_only_touches].
    apply run_session_failed_only_touches.
Qed.

Lemma run_session_wake_only_touches (P : Providers) (sid : Z) (pw : ProcWorld) (st : State) :
  only_touches sid st (run_session_wake P sid pw st).
Proof.
  unfold run_session_wake. destruct (is_active st); [apply only_touches_refl |].
  assert (H1 : only_touches sid st (session_set sid "status" (VStr "processing") st))
    by apply session_set_only_touches.
  generalize dependent (session_set sid "status" (VStr "processing") st).
  intros st1 H1.
  eapply only_touches_trans; [exact H1 |].
  destruct (_sessions st1 !! sid) as [session|] eqn:Hs; [| apply set_task_only_touches].
  assert (Hput : forall s', only_touches sid st1
                              (with_sessions (<[sid := s']> (_sessions st1)) st1)).
  { intros s'. split; [done |]. split.
    - intros sid' Hne. simpl. by rewrite lookup_insert_ne.
    - simpl. rewrite lookup_insert_eq, Hs. split; by eexists. }
  destruct (_process_recording P pw (heap st1) session) as [s' [[]|msg]].
  - eapply only_touches_trans; [apply Hput | apply set_task_only_touches].
  - eapply only_touches_trans; [apply Hput |].
    eapply only_touches_trans; [apply run_session_failed_only_touches |].
    apply set_task_only_touches.
Qed.

Lemma stop_session_only_touches (sid : Z) (now : Z) (td : Teardown) (st : State) :
  only_touches sid st (snd (stop_session sid now td st)).
Proof.
  unfold stop_session.
  destruct (_sessions st !! sid) as [session|]; [| apply only_touches_refl].
  pose proof (end_session_frame now td st) as Hend.
  destruct (String.eqb _ _).
  - destruct (end_session now td st) as [[[]|msg] st1]; simpl in *.
    + eapply only_touches_trans; [by apply same_registry_only_touches |].
      apply session_set_only_touches.
    + by apply same_registry_only_touches.
  - simpl. apply session_set_only_touches.
Qed.

(** [start_session] adds the session [counter + 1], with status [starting]
    and a task that has not run, and changes nothing else in the registry. *)
Lemma start_session_spec (url rcpt : string) (send : bool) (st : State) :
  let sid := _session_counter st + 1 in
  let st' := snd (start_session url rcpt send st) in
  fst (start_session url rcpt send st) = sid /\
  _session_counter st' = sid /\
  _sessions st' !! sid = Some (new_session sid url rcpt send) /\
  session_tasks st' !! sid = Some DrvCreated /\
  (forall sid', sid' ≠ sid ->
     _sessions st' !! sid' = _sessions st !! sid' /\
     session_tasks st' !! sid' = session_tasks st !! sid').
Proof.
  unfold start_session, set_task. simpl. repeat split.
  - by rewrite lookup_insert_eq.
  - by rewrite lookup_insert_eq.
  - by rewrite lookup_insert_ne.
  - by rewrite lookup_insert_ne.
Qed.

(** Every event other than a start only touches its subject. *)
Lemma step_only_touches (cfg : Config) (P : Providers) (e : Event) (sid : Z) (st : State) :
  subject e = Some sid -> only_touches sid st (step cfg P e st).
Proof.
  destruct e as [| sid0 now td | sid0 | sid0 jw now aw | sid0 pw |]; simpl;
    intros Hsub; try discriminate; injection Hsub as ->.
  - apply stop_session_only_touches.
  - destruct (session_tasks st !! sid) as [[]|]; try apply only_touches_refl.
    apply run_session_start_only_touches.
  - destruct (session_tasks st !! sid) as [[]|]; try apply only_touches_refl.
    apply run_session_joined_only_touches.
  - destruct (session_tasks st !! sid) as [[]|]; try apply only_touches_refl.
    apply run_session_wake_only_touches.
Qed.

(** ** Invariants of the process *)

Lemma step_counter_monotone (cfg : Config) (P : Providers) (e : Event) (st : State) :
  _session_counter st <= _session_counter (step cfg P e st).
Proof.
  destruct (subject e) as [sid|] eqn:Hsub.
  - destruct (step_only_touches cfg P e sid st Hsub) as [-> _]. lia.
  - destruct e; try discriminate; unfold step.
    + destruct (start_session_spec meeting_url recipient_email send_email st)
        as (_ & Hc & _). cbv zeta in Hc. rewrite Hc. lia.
    + destruct (monitor_tick_frame cfg tid now meeting_ended td st) as (_ & _ & ->). lia.
Qed.

Lemma run_counter_monotone (cfg : Config) (P : Providers) (events : list Event) (st : State) :
  _session_counter st <= _session_counter (run cfg P events st).
Proof.
  revert st. induction events as [|e events IH]; intros st; simpl; [lia |].
  etrans; [apply (step_counter_monotone cfg P e) | apply IH].
Qed.

Lemma step_ids_bounded (cfg : Config) (P : Providers) (e : Event) (st : State) :
  ids_bounded st -> ids_bounded (step cfg P e st).
Proof.
  intros [Hpos Hb].
  destruct (subject e) as [sid0|] eqn:Hsub.
  - destruct (step_only_touches cfg P e sid0 st Hsub) as (Hc & Ho & Hd).
    split; [by rewrite Hc |]. intros sid Hsome.
    rewrite Hc. apply Hb.
    destruct (decide (sid = sid0)) as [-> | Hne]; [by apply Hd |].
    by rewrite <- (proj1 (Ho sid Hne)).
  - destruct e; try discriminate.
    + pose proof (start_session_spec meeting_url recipient_email send_email st)
        as (_ & Hc & _ & _ & Hother).
      cbv zeta in Hc, Hother. unfold step.
      split; [rewrite Hc; lia |]. intros sid Hsome. rewrite Hc.
      destruct (decide (sid = _session_counter st + 1)) as [-> | Hne]; [lia |].
      rewrite (proj1 (Hother sid Hne)) in Hsome. specialize (Hb sid Hsome). lia.
    + unfold step.
      destruct (monitor_tick_frame cfg tid now meeting_ended td st) as (Hs & _ & Hc).
      unfold ids_bounded. rewrite Hs, Hc. by split.
Qed.

Lemma init_ids_bounded : ids_bounded init_state.
Proof. split; [done |]. intros sid [s Hs]. simpl in Hs. by rewrite lookup_empty in Hs. Qed.

Lemma run_ids_bounded (cfg : Config) (P : Providers) (events : list Event) (st : State) :
  ids_bounded st -> ids_bounded (run cfg P events st).
Proof.
  revert st. induction events as [|e events IH]; intros st Hb; simpl; [done |].
  by apply IH, step_ids_bounded.
Qed.

(** ** Starting a session *)

Lemma new_session_status (sid : Z) (url rcpt : string) (send : bool) :
  status_of (new_session sid url rcpt send) = "starting".
Proof. unfold status_of, new_session. by simplify_map_eq. Qed.

(** The first run of a task that was just created sets [joining]. *)
Lemma first_run_joining (cfg : Config) (P : Providers) (sid : Z) (st : State) :
  is_Some (_sessions st !! sid) ->
  session_tasks st !! sid = Some DrvCreated ->
  let st' := step cfg P (DriverRun sid) st in
  session_status sid st' = Some "joining" /\ session_tasks st' !! sid = Some DrvJoining.
Proof.
  intros [session Hs] Htask. simpl. rewrite Htask.
  unfold run_session_start. rewrite Hs. split.
  - unfold session_status. rewrite sessions_set_task.
    unfold recorder_start_session_begin.
    change (_sessions (with_rec_session ?a (with_heap ?b ?c))) with (_sessions c).
    rewrite lookup_session_set, decide_True, Hs by done. simpl.
    by rewrite status_of_insert.
  - by rewrite tasks_set_task.
Qed.

(** C7, as the code has it. On every state the process can reach,
    [start_session] returns at once (it is a function of the state, without
    any wait), never raises, and returns [counter + 1]: an id that no
    registered session has, larger than every registered id, and smaller than
    the id of any later call. It registers the session with status
    [starting] and creates its task; the first run of that task sets
    [joining]. *)
Theorem start_session_fresh_id (cfg : Config) (P : Providers) (events later : list Event)
    (url rcpt url' rcpt' : string) (send send' : bool) :
  let st := run cfg P events init_state in
  let sid := fst (start_session url rcpt send st) in
  let st' := snd (start_session url rcpt send st) in
  sid = _session_counter st + 1 /\
  _sessions st !! sid = None /\
  (forall sid', is_Some (_sessions st !! sid') -> sid' < sid) /\
  session_status sid st' = Some "starting" /\
  session_tasks st' !! sid = Some DrvCreated /\
  session_status sid (step cfg P (DriverRun sid) st') = Some "joining" /\
  sid < fst (start_session url' rcpt' send' (run cfg P later st')).
Proof.
  intros st sid st'.
  destruct (run_ids_bounded cfg P events init_state init_ids_bounded) as [Hpos Hb].
  fold st in Hpos, Hb.
  destruct (start_session_spec url rcpt send st) as (Hsid & Hc & Hnew & Htask & _).
  cbv zeta in Hsid, Hc, Hnew, Htask. fold sid in Hsid. fold st' in Hc, Hnew, Htask.
  rewrite <- Hsid in Hc, Hnew, Htask.
  split; [done |]. split; [| split; [| split; [| split; [done | split]]]].
  - destruct (_sessions st !! sid) as [s|] eqn:Hs; [| done].
    specialize (Hb sid ltac:(by eexists)). lia.
  - intros sid' Hsome. specialize (Hb sid' Hsome). lia.
  - unfold session_status. rewrite Hnew. simpl. by rewrite new_session_status.
  - by apply first_run_joining.
  - destruct (start_session_spec url' rcpt' send' (run cfg P later st')) as (-> & _).
    pose proof (run_counter_monotone cfg P later st'). lia.
Qed.

(** C7 as stated fails in one point: what [start_session] registers is
    [starting], not [joining]. *)
Lemma start_session_counterexample :
  let st' := snd (start_session Scenario.meet_url "team@example.com" true init_state) in
  session_status 1 st' = Some "starting" /\ session_status 1 st' ≠ Some "joining".
Proof. cbv zeta. split; by vm_compute. Qed.

(** ** Terminal states and [stop_session] *)

Lemma run_session_joined_cases (cfg : Config) (sid : Z) (jw : JoinWorld) (now : Z)
    (aw : AudioWorld) (st : State) :
  is_Some (_sessions st !! sid) ->
  let st' := run_session_joined cfg sid jw now aw st in
  session_tasks st' !! sid = Some DrvFinished \/
  session_status sid st' = Some "recording".
Proof.
  intros [session Hs]. unfold run_session_joined. rewrite Hs.
  pose proof (recorder_start_session_finish_frame cfg (session_str "meeting_url" session)
                jw now aw st) as (Hs1 & _).
  destruct (recorder_start_session_finish _ _ _ _ _ _) as [result st1]. simpl in Hs1.
  destruct (result ≫= _) as [[l m]|]; [| left; by rewrite tasks_set_task].
  destruct (bool_decide _); [left; by rewrite tasks_set_task |].
  right. unfold session_status.
  rewrite sessions_set_task, !lookup_session_set, !decide_True by done.
  rewrite Hs1, Hs. simpl. by rewrite status_of_insert.
Qed.

Lemma stopped_not_terminal (s : Session) : ~ terminal (<["status" := VStr "stopped"]> s).
Proof. unfold terminal. rewrite status_of_insert. by intros [? | ?]. Qed.

(** What [stop_session] does to its session: nothing when it raises, the
    status [stopped] when it returns. *)
Lemma stop_session_lookup (sid : Z) (now : Z) (td : Teardown) (st : State) :
  let st' := snd (stop_session sid now td st) in
  session_tasks st' = session_tasks st /\
  match fst (stop_session sid now td st) with
  | Returns _ => _sessions st' !! sid = insert "status" (VStr "stopped") <$> _sessions st !! sid
  | Raises _ => _sessions st' = _sessions st
  end.
Proof.
  unfold stop_session.
  destruct (_sessions st !! sid) as [session|] eqn:Hs; [| by simpl].
  pose proof (end_session_frame now td st) as (Hs1 & Ht1 & _).
  destruct (String.eqb _ _).
  - destruct (end_session now td st) as [[[]|msg] st1]; simpl in *; [| done].
    split; [done |]. by rewrite lookup_alter_eq, Hs1, Hs.
  - simpl. split; [done |]. by rewrite lookup_alter_eq, Hs.
Qed.

(** A driver event met by a task that is not waiting for it changes
    nothing. *)
Lemma driver_event_ignored (cfg : Config) (P : Providers) (e : Event) (sid : Z) (st : State) :
  subject e = Some sid ->
  (forall now td, e ≠ ApiStop sid now td) ->
  session_tasks st !! sid = Some DrvFinished ->
  step cfg P e st = st.
Proof.
  intros Hsub Hstop Hfin.
  destruct e as [| sid1 now td | sid1 | sid1 jw now aw | sid1 pw |];
    try discriminate; injection Hsub as ->; simpl.
  - by destruct (Hstop now td).
  - by rewrite Hfin.
  - by rewrite Hfin.
  - by rewrite Hfin.
Qed.

Lemma driver_run_not_terminal (sid : Z) (st : State) (session : Session) :
  _sessions (run_session_start sid st) !! sid = Some session -> ~ terminal session.
Proof.
  unfold run_session_start. intros Hs.
  destruct (_sessions st !! sid) as [s0|] eqn:Hs0.
  - rewrite sessions_set_task in Hs. unfold recorder_start_session_begin in Hs.
    change (_sessions (with_rec_session ?a (with_heap ?b ?c))) with (_sessions c) in Hs.
    rewrite lookup_session_set, decide_True, Hs0 in Hs by done.
    simpl in Hs. injection Hs as <-.
    unfold terminal. rewrite status_of_insert. by intros [? | ?].
  - rewrite sessions_set_task, Hs0 in Hs. discriminate.
Qed.

(** An event about a session leaves its task finished whenever it leaves
    the session [completed] or [error]. *)
Lemma subject_step_finished (cfg : Config) (P : Providers) (e : Event) (sid : Z) (st : State)
    (session : Session) :
  finished_when_terminal st ->
  subject e = Some sid ->
  _sessions (step cfg P e st) !! sid = Some session ->
  terminal session ->
  session_tasks (step cfg P e st) !! sid = Some DrvFinished.
Proof.
  intros Hinv Hsub Hs Hterm.
  assert (Hold : _sessions st !! sid = Some session ->
                 session_tasks st !! sid = Some DrvFinished)
    by (intros Hs0; by apply (Hinv sid session)).
  destruct e as [| sid1 now td | sid1 | sid1 jw now aw | sid1 pw |];
    try discriminate; injection Hsub as ->; simpl in *.
  - destruct (stop_session_lookup sid now td st) as [Ht' Hl]. cbv zeta in Ht', Hl.
    destruct (fst (stop_session sid now td st)).
    + rewrite Hl in Hs. destruct (_sessions st !! sid); [| discriminate].
      simpl in Hs. injection Hs as <-. by apply stopped_not_terminal in Hterm.
    + rewrite Hl in Hs. rewrite Ht'. by apply Hold.
  - destruct (session_tasks st !! sid) as [[]|] eqn:Ht;
      try (specialize (Hold Hs); congruence).
    by apply driver_run_not_terminal in Hs.
  - destruct (session_tasks st !! sid) as [[]|] eqn:Ht;
      try (specialize (Hold Hs); congruence).
    destruct (_sessions st !! sid) as [s0|] eqn:Hs0.
    + destruct (run_session_joined_cases cfg sid jw now aw st) as [Hfin | Hrec];
        [by rewrite Hs0 | done |].
      unfold session_status in Hrec. rewrite Hs in Hrec. simpl in Hrec.
      injection Hrec as Hrec. unfold terminal in Hterm. rewrite Hrec in Hterm.
      by destruct Hterm.
    + unfold run_session_joined in Hs. rewrite Hs0 in Hs. congruence.
  - destruct (session_tasks st !! sid) as [[]|] eqn:Ht;
      try (specialize (Hold Hs); congruence).
    destruct (is_active st) eqn:Hact.
    + unfold run_session_wake in *. rewrite Hact in *.
      specialize (Hold Hs). congruence.
    + destruct (_sessions st !! sid) as [s0|] eqn:Hs0.
      * by destruct (wake_terminal P sid pw st s0 Hs0 Hact) as (_ & Hfin & _).
      * destruct (run_session_wake_only_touches P sid pw st) as (_ & _ & Hd).
        assert (is_Some (_sessions st !! sid)) as [? Hsome] by (apply Hd; by eexists).
        congruence.
Qed.

Lemma step_finished_when_terminal (cfg : Config) (P : Providers) (e : Event) (st : State) :
  ids_bounded st -> finished_when_terminal st -> finished_when_terminal (step cfg P e st).
Proof.
  intros [Hpos Hb] Hinv sid session Hs Hterm.
  destruct (subject e) as [sid0|] eqn:Hsub.
  - destruct (decide (sid = sid0)) as [-> | Hne].
    + by apply (subject_step_finished cfg P e sid0 st session).
    + destruct (step_only_touches cfg P e sid0 st Hsub) as (_ & Ho & _).
      destruct (Ho sid Hne) as [Hs' Ht']. rewrite Ht'. apply (Hinv sid session); [| done].
      by rewrite <- Hs'.
  - destruct e; try discriminate; unfold step in *.
    + destruct (start_session_spec meeting_url recipient_email send_email st)
        as (_ & _ & Hnew & _ & Hother). cbv zeta in Hnew, Hother.
      destruct (decide (sid = _session_counter st + 1)) as [-> | Hne].
      * rewrite Hnew in Hs. injection Hs as <-.
        unfold terminal in Hterm. rewrite new_session_status in Hterm. by destruct Hterm.
      * destruct (Hother sid Hne) as [Hs' Ht']. rewrite Ht'.
        apply (Hinv sid session); [| done]. by rewrite <- Hs'.
    + destruct (monitor_tick_frame cfg tid now meeting_ended td st) as (Hs' & Ht' & _).
      rewrite Ht'. apply (Hinv sid session); [| done]. by rewrite <- Hs'.
Qed.

Lemma run_invariants (cfg : Config) (P : Providers) (events : list Event) (st : State) :
  ids_bounded st -> finished_when_terminal st ->
  ids_bounded (run cfg P events st) /\ finished_when_terminal (run cfg P events st).
Proof.
  revert st. induction events as [|e events IH]; intros st Hb Hinv; simpl; [done |].
  apply IH; [by apply step_ids_bounded | by apply step_finished_when_terminal].
Qed.

Lemma init_finished_when_terminal : finished_when_terminal init_state.
Proof. intros sid session Hs. simpl in Hs. by rewrite lookup_empty in Hs. Qed.

Lemma session_set_idem (sid : Z) (key : string) (v : Value) (st : State) :
  session_set sid key v (session_set sid key v st) = session_set sid key v st.
Proof.
  unfold session_set. simpl. unfold with_sessions. simpl. f_equal.
  apply map_eq. intros sid'. destruct (decide (sid = sid')) as [<- | Hne].
  - rewrite !lookup_alter_eq. destruct (_sessions st !! sid) as [s|]; [| done].
    simpl. f_equal. apply insert_insert_eq.
  - by rewrite !lookup_alter_ne.
Qed.

(** A stop of a session that is not [recording] returns and only writes
    the status. *)
Lemma stop_session_not_recording (sid : Z) (now : Z) (td : Teardown) (st : State)
    (session : Session) :
  _sessions st !! sid = Some session ->
  status_of session ≠ "recording" ->
  stop_session sid now td st
  = (Returns tt, session_set sid "status" (VStr "stopped") st).
Proof.
  intros Hs Hne. unfold stop_session. rewrite Hs.
  destruct (String.eqb_spec (status_of session) "recording"); [done | reflexivity].
Qed.

(** C2, as the code has it. On every state the process can reach: (1) a
    session that is [completed] or [error] is left exactly as it is by every
    event other than a stop of that very session (its task has returned);
    (2) [stop_session] on a registered session that is not [recording],
    [completed] and [error] included, returns and overwrites the status with
    [stopped]; (3) a second [stop_session] after a first that returned changes
    nothing. *)
Theorem terminal_sessions_and_stop (cfg : Config) (P : Providers) (events : list Event)
    (sid : Z) (session : Session) :
  let st := run cfg P events init_state in
  _sessions st !! sid = Some session ->
  (terminal session ->
   forall e, (forall now td, e ≠ ApiStop sid now td) ->
             _sessions (step cfg P e st) !! sid = Some session) /\
  (status_of session ≠ "recording" ->
   forall now td,
     fst (stop_session sid now td st) = Returns tt /\
     session_status sid (snd (stop_session sid now td st)) = Some "stopped") /\
  (forall now td now' td',
     fst (stop_session sid now td st) = Returns tt ->
     stop_session sid now' td' (snd (stop_session sid now td st))
     = (Returns tt, snd (stop_session sid now td st))).
Proof.
  intros st Hs.
  destruct (run_invariants cfg P events init_state init_ids_bounded
              init_finished_when_terminal) as [[Hpos Hb] Hinv].
  fold st in Hpos, Hb, Hinv. split; [| split].
  - intros Hterm e Hstop.
    destruct (subject e) as [sid0|] eqn:Hsub.
    + destruct (decide (sid = sid0)) as [-> | Hne].
      * rewrite (driver_event_ignored cfg P e sid0 st Hsub Hstop); [done |].
        by apply (Hinv sid0 session).
      * destruct (step_only_touches cfg P e sid0 st Hsub) as (_ & Ho & _).
        by rewrite (proj1 (Ho sid Hne)).
    + destruct e; try discriminate; unfold step.
      * destruct (start_session_spec meeting_url recipient_email send_email st)
          as (_ & _ & _ & _ & Hother). cbv zeta in Hother.
        rewrite (proj1 (Hother sid ltac:(specialize (Hb sid ltac:(by eexists)); lia))).
        done.
      * destruct (monitor_tick_frame cfg tid now meeting_ended td st) as (-> & _). done.
  - intros Hne now td.
    rewrite (stop_session_not_recording sid now td st session Hs Hne). simpl.
    split; [done |]. unfold session_status.
    rewrite lookup_session_set, decide_True, Hs by done. simpl.
    by rewrite status_of_insert.
  - intros now td now' td' Hret.
    assert (Hst1 : exists st0, snd (stop_session sid now td st)
                               = session_set sid "status" (VStr "stopped") st0 /\
                               _sessions st0 = _sessions st).
    { unfold stop_session in *. rewrite Hs in *.
      pose proof (end_session_frame now td st) as (Hs1 & _).
      destruct (String.eqb _ _).
      - destruct (end_session now td st) as [[[]|msg] st1]; simpl in *; [| discriminate].
        by exists st1.
      - by exists st. }
    destruct Hst1 as (st0 & -> & Hs0).
    rewrite (stop_session_not_recording sid now' td' _
               (<["status" := VStr "stopped"]> session)).
    + by rewrite session_set_idem.
    + by rewrite lookup_session_set, decide_True, Hs0, Hs.
    + by rewrite status_of_insert.
Qed.

Lemma terminal_sessions_and_stop_witness :
  let st := run default_config Scenario.full_providers Scenario.completed_events init_state in
  session_status 1 st = Some "completed" /\
  session_status 1
    (step default_config Scenario.full_providers (DriverWake 1 Scenario.pw_whisper_down) st)
  = Some "completed" /\
  session_status 1 (snd (stop_session 1 200 Scenario.td_ok st)) = Some "stopped" /\
  stop_session 1 300 Scenario.td_ok (snd (stop_session 1 200 Scenario.td_ok st))
  = (Returns tt, snd (stop_session 1 200 Scenario.td_ok st)).
Proof.
  intros st.
  assert (Hstatus : session_status 1 st = Some "completed") by (by vm_compute).
  destruct (_sessions st !! 1) as [session|] eqn:Hs; [| by vm_compute in Hs].
  assert (Hcompleted : status_of session = "completed").
  { unfold session_status in Hstatus. rewrite Hs in Hstatus. by injection Hstatus. }
  destruct (terminal_sessions_and_stop default_config Scenario.full_providers
              Scenario.completed_events 1 session Hs) as (Hstable & Hstop & Hidem).
  fold st in Hstable, Hstop, Hidem.
  split; [done |]. split; [| split].
  - unfold session_status.
    rewrite (Hstable (or_introl Hcompleted) (DriverWake 1 Scenario.pw_whisper_down))
      by (intros; discriminate).
    simpl. by rewrite Hcompleted.
  - apply (Hstop ltac:(by rewrite Hcompleted) 200 Scenario.td_ok).
  - apply (Hidem 200 Scenario.td_ok 300 Scenario.td_ok).
    apply (Hstop ltac:(by rewrite Hcompleted) 200 Scenario.td_ok).
Defined.

(** C2 as stated fails: a stop turns a [completed] session, and likewise a
    session in [error], into [stopped]. *)
Lemma terminal_state_counterexample :
  let completed := Scenario.processed_state Scenario.pw_ok in
  let failed := Scenario.processed_state Scenario.pw_whisper_down in
  (session_status 1 completed = Some "completed" /\
   session_status 1 (step default_config Scenario.full_providers
                       (ApiStop 1 200 Scenario.td_ok) completed) = Some "stopped") /\
  (session_status 1 failed = Some "error" /\
   session_status 1 (step default_config Scenario.full_providers
                       (ApiStop 1 200 Scenario.td_ok) failed) = Some "stopped").
Proof. cbv zeta. repeat split; by vm_compute. Qed.

(** ** Stopping a recording *)

(** When the monitor can be cancelled and the teardown answers,
    [end_session] returns; afterwards the recorder is not active, and every
    session object keeps its audio file. *)
Lemma end_session_inactive (now : Z) (td : Teardown) (st : State) :
  fst (cancel_monitoring_task st) = Returns tt ->
  td_stop_recording td = Returns tt ->
  td_leave_meeting td = Returns tt ->
  exists st',
    end_session now td st = (Returns tt, st') /\
    is_active st' = false /\
    same_registry st st' /\
    (forall l m, heap st !! l = Some m ->
       exists m', heap st' !! l = Some m' /\ ms_audio_file m' = ms_audio_file m).
Proof.
  intros Hcancel Hstop Hleave.
  destruct (rec_session st) as [l|] eqn:Hl.
  - destruct (end_session_returns now td st l Hl Hcancel Hstop Hleave)
      as (st' & Heq & Hl' & Hh' & Hs' & Ht' & Hc' & _).
    exists st'. split; [done |]. split; [| split].
    + by destruct (closed_not_active now st st' l Hl' Hh').
    + by repeat split.
    + intros l0 m Hm. rewrite Hh', list_lookup_alter.
      destruct (decide (l = l0)) as [-> | Hne].
      * rewrite Hm. simpl. eexists. split; [reflexivity | apply close_session_audio_file].
      * by exists m.
  - exists st. unfold end_session. rewrite Hl. split; [done |]. split; [| split].
    + unfold is_active, current_session. by rewrite Hl.
    + apply same_registry_refl.
    + intros l m Hm. by exists m.
Qed.

Lemma is_active_session_set (sid : Z) (key : string) (v : Value) (st : State) :
  is_active (session_set sid key v st) = is_active st.
Proof. reflexivity. Qed.

(** C3, as the code has it. [stop_session] on a session in [recording]
    returns only after [end_session] has ended the recorder's session: when the
    monitor can be cancelled and the teardown answers, it returns with the
    status [stopped] and the recorder inactive, without waiting for any poll.
    The status does not stay [stopped]: the driving task leaves its wait loop
    at its next wake-up, processes the recording, and the session becomes
    [completed] or [error], and [completed] whenever the recording is on disk
    and transcription and the unguarded steps return. *)
Theorem stop_recording_session (P : Providers) (sid : Z) (now : Z) (td : Teardown)
    (pw : ProcWorld) (st : State) (session : Session) :
  _sessions st !! sid = Some session ->
  status_of session = "recording" ->
  fst (cancel_monitoring_task st) = Returns tt ->
  td_stop_recording td = Returns tt ->
  td_leave_meeting td = Returns tt ->
  let st1 := snd (stop_session sid now td st) in
  let st2 := run_session_wake P sid pw st1 in
  fst (stop_session sid now td st) = Returns tt /\
  session_status sid st1 = Some "stopped" /\
  is_active st1 = false /\
  (exists session', _sessions st2 !! sid = Some session' /\ terminal session') /\
  (forall m tr,
     session_meeting_session session st = Some m ->
     audio_on_disk pw m ->
     pw_transcribe pw = Returns tr ->
     unguarded_steps_return P pw tr ->
     session_status sid st2 = Some "completed").
Proof.
  intros Hs Hrec Hcancel Hstop Hleave.
  destruct (end_session_inactive now td st Hcancel Hstop Hleave)
    as (st0 & Hend & Hinactive & (Hs0 & _) & Hheap).
  assert (Hstop_eq : stop_session sid now td st
                     = (Returns tt, session_set sid "status" (VStr "stopped") st0)).
  { unfold stop_session. rewrite Hs, Hrec. simpl. by rewrite Hend. }
  rewrite Hstop_eq. cbn [fst snd].
  set (stopped := <["status" := VStr "stopped"]> session).
  assert (Hs1 : _sessions (session_set sid "status" (VStr "stopped") st0) !! sid
                = Some stopped).
  { by rewrite lookup_session_set, decide_True, Hs0, Hs. }
  split; [done |]. split; [| split; [| split]].
  - unfold session_status. rewrite Hs1. simpl. subst stopped. by rewrite status_of_insert.
  - by rewrite is_active_session_set.
  - by destruct (wake_terminal P sid pw _ stopped Hs1 Hinactive) as (Hterm & _).
  - intros m tr Hm Haudio Htr Hsteps.
    destruct (session_meeting_session_inv session st m Hm) as (l & Hl & Hlm).
    destruct (Hheap l m Hlm) as (m' & Hlm' & Hfile).
    destruct (enrichment_returns P pw tr (<["status" := VStr "processing"]> stopped)
                Htr Hsteps) as (session' & locals & Heq & _).
    destruct (wake_completes P sid pw (session_set sid "status" (VStr "stopped") st0)
                stopped session' m' locals) as [Hfinal _].
    + done.
    + unfold session_meeting_session. subst stopped.
      by rewrite session_get_insert_ne, Hl.
    + done.
    + split; [| done]. destruct Haudio as [Hf Hex]. split; [by rewrite Hfile | done].
    + unfold session_status. rewrite Hfinal. simpl. by rewrite status_of_insert.
Qed.

Lemma stop_recording_session_witness :
  let st1 := snd (stop_session 1 130 Scenario.td_ok Scenario.recording_state) in
  let st2 := run_session_wake Scenario.full_providers 1 Scenario.pw_ok st1 in
  session_status 1 Scenario.recording_state = Some "recording" /\
  session_status 1 st1 = Some "stopped" /\
  is_active st1 = false /\
  session_status 1 st2 = Some "completed".
Proof.
  intros st1 st2.
  assert (Hrec : session_status 1 Scenario.recording_state = Some "recording")
    by (by vm_compute).
  destruct (_sessions Scenario.recording_state !! 1) as [session|] eqn:Hs;
    [| by vm_compute in Hs].
  destruct (session_meeting_session session Scenario.recording_state) as [m|] eqn:Hm.
  2:{ exfalso. revert Hm. injection (eq_trans (eq_sym Hs) eq_refl) as ->. by vm_compute. }
  destruct (stop_recording_session Scenario.full_providers 1 130 Scenario.td_ok Scenario.pw_ok
              Scenario.recording_state session Hs)
    as (_ & Hstopped & Hinactive & _ & Hcompleted).
  - unfold session_status in Hrec. rewrite Hs in Hrec. by injection Hrec.
  - by vm_compute.
  - reflexivity.
  - reflexivity.
  - split; [done |]. split; [done |]. split; [done |].
    apply (Hcompleted m Scenario.transcript Hm).
    + revert Hm. injection (eq_trans (eq_sym Hs) eq_refl) as ->.
      vm_compute. intros [= <-]. split; [by eexists | done].
    + reflexivity.
    + repeat split; try reflexivity. by left.
Defined.

(** C3 as stated fails in its last part: a session stopped while it was
    [recording] is processed by its driving task and ends as [completed]. *)
Lemma stop_then_completed_counterexample :
  let stopped :=
    step default_config Scenario.full_providers (ApiStop 1 130 Scenario.td_ok)
      Scenario.recording_state in
  let later :=
    step default_config Scenario.full_providers (DriverWake 1 Scenario.pw_ok) stopped in
  session_status 1 Scenario.recording_state = Some "recording" /\
  session_status 1 stopped = Some "stopped" /\
  session_status 1 later = Some "completed".
Proof. cbv zeta. repeat split; by vm_compute. Qed.

(** ** No exclusion between sessions *)




(** ** The HTTP handlers *)

(** Without a controller every operation answers 503. *)
Lemma uninitialized_is_503 (db : Database) (path_exists : string -> bool) (now : Z)
    (td : Teardown) (op : Operation) (session_id : Z) :
  status_code (handle db path_exists now td op None session_id) = 503.
Proof. reflexivity. Qed.

(** For an id that is neither registered nor in the database, every read
    operation answers 404. *)
Lemma unknown_id_read_is_404 (db : Database) (path_exists : string -> bool) (now : Z)
    (td : Teardown) (op : Operation) (st : State) (session_id : Z) :
  _sessions st !! session_id = None ->
  db !! session_id = None ->
  op ≠ OpStop ->
  status_code (handle db path_exists now td op (Some st) session_id) = 404.
Proof.
  intros Hs Hdb Hop.
  destruct op; try done; simpl;
    unfold get_session_status, get_transcript, get_summary, get_pdf_path, get_result;
    rewrite Hs; simpl; rewrite ?Hdb; simpl; try done.
  by destruct (session_id <=? 0).
Qed.

(** The stop request for an id that is not registered answers 500. *)
Lemma unknown_id_stop_is_500 (db : Database) (path_exists : string -> bool) (now : Z)
    (td : Teardown) (st : State) (session_id : Z) :
  _sessions st !! session_id = None ->
  handle db path_exists now td OpStop (Some st) session_id
  = HTTPException 500 ("Session " ++ PyStr.of_int session_id ++ " not found")%string.
Proof. intros Hs. simpl. unfold stop_session. by rewrite Hs. Qed.

(** C9 on the code: with the controller initialised and the session id 99
    neither registered nor stored, the status request answers 404, as every
    read operation does, while the stop request answers 500 with the message
    of the [ValueError] that [stop_session] raised. *)
Theorem stop_unknown_session_is_500 :
  status_code (handle ∅ (fun _ => false) 0 Scenario.td_ok OpStatus (Some init_state) 99) = 404 /\
  handle ∅ (fun _ => false) 0 Scenario.td_ok OpStop (Some init_state) 99
  = HTTPException 500 "Session 99 not found".
Proof. split; by vm_compute. Qed.
